(** * E2EE-CHAT: room presence and message lifecycle

    A shallow embedding of the Socket.IO handlers and the message routes of
    [app.py] over the tables of [models.py].  The two process-wide
    dictionaries [users] and [rooms_users] and the three tables touched by
    the handlers form an explicit [state]; every handler is a function from
    the state before to the state after together with the list of events it
    emits, in program order. *)

From stdpp Require Import gmap strings list fin_maps sorting.
From Stdlib Require Import ZArith Ascii.
Local Open Scope Z_scope.

(** ** Host functions

    Three library calls of the handlers depend on Unicode tables, on the
    grammar of integer literals and on binary floating point.  They are
    taken as an interface; the statements below hold for every
    implementation of it.
    - [str_lower s] is [s.lower()];
    - [int_of_str s] is [int(s)], [None] when it raises;
    - [utc_fromtimestamp_ms ms] is
      [datetime.fromtimestamp(ms / 1000.0, tz=timezone.utc)] as a count of
      microseconds since the epoch, [None] when the division or the
      conversion raises.
    The one law is that the empty string has no letters to change. *)
Class PyHost := {
  str_lower : string → string;
  int_of_str : string → option Z;
  utc_fromtimestamp_ms : Z → option Z;
  str_lower_empty : str_lower "" = "";
}.

(** ** Values of the event payloads *)

(** The [expires_at] key of a [message] payload is used through its truth
    value and through [int(...)], so it keeps its dynamic type.  Floats and
    containers are left out of the model. *)
Inductive pyval :=
  | PNone
  | PBool (b : bool)
  | PInt (z : Z)
  | PStr (s : string).

(** [if v:] *)
Definition truthy (v : pyval) : bool :=
  match v with
  | PNone => false
  | PBool b => b
  | PInt z => negb (z =? 0)
  | PStr s => negb (String.eqb s "")
  end.

(** [int(v)], [None] when it raises. *)
Definition py_int `{PyHost} (v : pyval) : option Z :=
  match v with
  | PNone => None
  | PBool b => Some (if b then 1 else 0)
  | PInt z => Some z
  | PStr s => int_of_str s
  end.

(** Truth value of [data.get(key)] for a key that holds a string: absent,
    [None] and the empty string are false. *)
Definition truthy_str (o : option string) : bool :=
  match o with
  | Some s => negb (String.eqb s "")
  | None => false
  end.

(** The encrypted envelope: recipient key to ciphertext.  The column
    [content] holds its JSON text; the model keeps the mapping itself. *)
Abbreviation envelope := (list (string * string)).

Definition truthy_map (o : option envelope) : bool :=
  match o with
  | Some (_ :: _) => true
  | _ => false
  end.

(** [a or b] on optional envelopes. *)
Definition or_map (a b : option envelope) : option envelope :=
  if truthy_map a then a else b.

(** [timedelta(seconds=1)] in microseconds. *)
Definition one_second : Z := 1000000.

(** ** Content safety (app.py, is_content_safe) *)

Definition unsafe_keywords : list string :=
  ["malware"; "phishing"; "virus"; "hack"; "abuse"].

(** [kw in s] on strings: [kw] occurs in [s] as a contiguous substring. *)
Fixpoint contains (kw s : string) : bool :=
  String.prefix kw s ||
  match s with
  | EmptyString => false
  | String _ s' => contains kw s'
  end.

Definition is_content_safe `{PyHost} (text : option string) : bool :=
  let text_lower := str_lower (default "" text) in
  negb (existsb (λ kw, contains kw text_lower) unsafe_keywords).

(** ** Tables (models.py) *)

Module User.
(** [password_hash] is filled from random bytes on the only path that
    creates a row here and is never read; it is not kept. *)
Record t := mk {
  email : string;
  username : string;
  is_anonymous : bool;
  public_key : option string;
}.
End User.

Module Message.
(** The primary key [id] is the key of the table.  [readers] holds the
    decoded JSON list of the column.  A nullable column is an [option]. *)
Record t := mk {
  room : string;
  username : string;
  content : envelope;
  file_url : option string;
  file_name : option string;
  timestamp : option Z;
  expires_at : option Z;
  delivered : bool;
  read : bool;
  readers : list string;
  delete_on_read : bool;
  require_all_read : bool;
}.

Definition set_readers (rs : list string) (m : t) : t :=
  mk (room m) (username m) (content m) (file_url m) (file_name m)
     (timestamp m) (expires_at m) (delivered m) (read m) rs
     (delete_on_read m) (require_all_read m).

Definition set_read (b : bool) (m : t) : t :=
  mk (room m) (username m) (content m) (file_url m) (file_name m)
     (timestamp m) (expires_at m) (delivered m) b (readers m)
     (delete_on_read m) (require_all_read m).

Definition set_content (c : envelope) (m : t) : t :=
  mk (room m) (username m) c (file_url m) (file_name m)
     (timestamp m) (expires_at m) (delivered m) (read m) (readers m)
     (delete_on_read m) (require_all_read m).
End Message.

(** ** Server state *)

(** [users] is the dictionary sid -> username, [rooms_users] the dictionary
    room -> set of usernames.  [db_room_join] is the RoomJoin table under
    its unique key (room, username), holding [join_time]. *)
Record state := State {
  users : gmap string string;
  rooms_users : gmap string (gset string);
  db_user : list User.t;
  db_room_join : gmap (string * string) Z;
  db_message : gmap Z Message.t;
}.

Definition set_users (u : gmap string string) (s : state) : state :=
  State u (rooms_users s) (db_user s) (db_room_join s) (db_message s).

Definition set_rooms_users (r : gmap string (gset string)) (s : state) : state :=
  State (users s) r (db_user s) (db_room_join s) (db_message s).

Definition set_db_user (t : list User.t) (s : state) : state :=
  State (users s) (rooms_users s) t (db_room_join s) (db_message s).

Definition set_db_room_join (t : gmap (string * string) Z) (s : state) : state :=
  State (users s) (rooms_users s) (db_user s) t (db_message s).

Definition set_db_message (t : gmap Z Message.t) (s : state) : state :=
  State (users s) (rooms_users s) (db_user s) (db_room_join s) t.

Definition initial_state : state := State ∅ ∅ [] ∅ ∅.

(** ** Emitted events *)

(** Where an event goes: [room=r], [room=r] without one connection
    ([skip_sid], [include_self=False]), or the calling connection only
    ([emit] without a room inside a handler). *)
Inductive target :=
  | ToRoom (room : string)
  | ToRoomSkip (room : string) (skip_sid : string)
  | ToSender (sid : string).

(** The payload of the [message] event. *)
Record message_payload := MessagePayload {
  mp_id : Z;
  mp_user : string;
  mp_plaintext : option string;
  mp_encrypted_map : envelope;
  mp_fileUrl : option string;
  mp_fileName : option string;
  mp_expires_at : option Z;
  mp_delivered : bool;
  mp_read : bool;
  mp_delete_on_read : bool;
  mp_require_all_read : bool;
}.

(** One constructor for each event name, with its payload.  The user list
    of [online_users] is the listing of a set, kept as the set. *)
Inductive payload :=
  | EvStatus (msg : string)
  | EvOnlineUsers (users : gset string)
  | EvMessageRejected (reason : string)
  | EvMessage (p : message_payload)
  | EvDeleteMessage (id : Z)
  | EvEditMessage (id : Z) (encryptedmap : envelope)
  | EvMessageRead (id : Z) (room : string)
  | EvTyping (user : option string)
  | EvStopTyping (user : option string).

Abbreviation emitted := (payload * target)%type.

(** ** Payloads of the inbound events

    [data.get(key)] of a key that holds text is an optional string, [None]
    when the key is absent or null.  The room of a [message] event and the
    two flags are taken at the types the columns give them; [expires_at]
    keeps its dynamic type (see [pyval]). *)

Record join_data := JoinData {
  jd_username : option string;
  jd_room : option string;
  jd_publicKey : option string;
}.

Record leave_data := LeaveData {
  ld_username : option string;
  ld_room : option string;
}.

Record message_data := MessageData {
  md_room : string;
  md_encrypted_map : envelope;
  md_expires_at : pyval;
  md_delete_on_read : bool;
  md_require_all_read : bool;
  md_fileUrl : option string;
  md_fileName : option string;
  md_plaintext : option string;
}.

Record edit_data := EditData {
  ed_encrypted_map : option envelope;
  ed_encryptedmap : option envelope;
}.

(** ** Socket events (app.py) *)

(** [on_connect] only prints. *)
Definition on_connect (sid : string) (s : state) : state * list emitted :=
  (s, []).

(** [on_disconnect].  The rooms to notify are listed in the order of the
    finite map, not in the insertion order of the dictionary. *)
Definition on_disconnect (sid : string) (s : state) : state * list emitted :=
  let username := users s !! sid in
  let s1 := set_users (delete sid (users s)) s in
  if truthy_str username then
    let username := default "" username in
    let rooms_to_update :=
      (map_to_list (filter (λ kv, username ∈ kv.2) (rooms_users s))).*1 in
    let rooms_users' := (λ user_set, user_set ∖ {[username]}) <$> rooms_users s in
    (set_rooms_users rooms_users' s1,
     (λ room, (EvOnlineUsers (default ∅ (rooms_users' !! room)), ToRoom room))
       <$> rooms_to_update)
  else (s1, []).

(** [User.query.filter_by(username=username).first()] *)
Definition find_user (username : string) (t : list User.t) : option User.t :=
  List.find (λ u, bool_decide (User.username u = username)) t.

(** [user.public_key = public_key] on the row returned by [find_user]. *)
Fixpoint set_public_key (username : string) (public_key : option string)
    (t : list User.t) : list User.t :=
  match t with
  | [] => []
  | u :: t' =>
      if bool_decide (User.username u = username)
      then User.mk (User.email u) (User.username u) (User.is_anonymous u) public_key :: t'
      else u :: set_public_key username public_key t'
  end.

(** The column [email] is unique: inserting a second row with the same
    address makes the commit raise. *)
Definition email_taken (e : string) (t : list User.t) : bool :=
  existsb (λ u, bool_decide (User.email u = e)) t.

(** The account part of [on_join] (lines 298-307): the table after it, or
    [None] when the commit raises. *)
Definition join_user (username : string) (public_key : option string)
    (t : list User.t) : option (list User.t) :=
  match find_user username t with
  | Some user =>
      if truthy_str public_key && negb (bool_decide (User.public_key user = public_key))
      then Some (set_public_key username public_key t)
      else Some t
  | None =>
      let e := username +:+ "@example.com" in
      if email_taken e t then None
      else Some (t ++ [User.mk e username true public_key])
  end.

(** [on_join]: [None] when the handler raises, which leaves the
    dictionaries and the tables as they were.  [join_room] changes only
    which connections the transport delivers a room event to; deliveries
    are not modelled, an emitted event records its target. *)
Definition on_join (sid : string) (now : Z) (data : join_data) (s : state)
    : option (state * list emitted) :=
  let public_key := jd_publicKey data in
  if negb (truthy_str (jd_username data)) || negb (truthy_str (jd_room data))
  then Some (s, [])
  else
    let username := default "" (jd_username data) in
    let room := default "" (jd_room data) in
    match join_user username public_key (db_user s) with
    | None => None
    | Some db_user' =>
        let s1 := set_db_user db_user' s in
        let s2 := set_db_room_join (<[(room, username) := now]> (db_room_join s1)) s1 in
        let s3 := set_users (<[sid := username]> (users s2)) s2 in
        let user_set := default ∅ (rooms_users s3 !! room) in
        let already_in_room := bool_decide (username ∈ user_set) in
        let user_set' := {[username]} ∪ user_set in
        let s4 := set_rooms_users (<[room := user_set']> (rooms_users s3)) s3 in
        Some (s4,
              (if negb already_in_room
               then [(EvStatus (username +:+ " has entered the room."),
                      ToRoomSkip room sid)]
               else [])
              ++ [(EvOnlineUsers user_set', ToRoom room)])
    end.

(** [on_leave] *)
Definition on_leave (sid : string) (data : leave_data) (s : state)
    : state * list emitted :=
  if negb (truthy_str (ld_username data)) || negb (truthy_str (ld_room data))
  then (s, [])
  else
    let username := default "" (ld_username data) in
    let room := default "" (ld_room data) in
    let s1 := set_users (delete sid (users s)) s in
    match rooms_users s1 !! room with
    | Some user_set =>
        if bool_decide (username ∈ user_set) then
          let user_set' := user_set ∖ {[username]} in
          (set_rooms_users (<[room := user_set']> (rooms_users s1)) s1,
           [(EvOnlineUsers user_set', ToRoom room);
            (EvStatus (username +:+ " has left the room."), ToRoomSkip room sid)])
        else (s1, [])
    | None => (s1, [])
    end.

(** The id of a new row: one more than the largest id in use, 1 in an
    empty table (an integer primary key of SQLite). *)
Definition fresh_id (t : gmap Z Message.t) : Z :=
  1 + map_fold (λ i _ acc, Z.max i acc) 0 t.

(** The guard of line 364: [plaintext and not is_content_safe(plaintext)]. *)
Definition unsafe_plaintext `{PyHost} (plaintext : option string) : bool :=
  truthy_str plaintext && negb (is_content_safe plaintext).

(** The expiry instant computed by [handle_message] (lines 353-361). *)
Definition normalize_expiry `{PyHost} (now : Z) (expires_at_ms : pyval) : option Z :=
  if truthy expires_at_ms then
    match py_int expires_at_ms ≫= utc_fromtimestamp_ms with
    | Some expires_at =>
        if bool_decide (expires_at ≤ now) then Some (now + one_second)
        else Some expires_at
    | None => None
    end
  else None.

(** [handle_message] *)
Definition handle_message `{PyHost} (sid : string) (now : Z) (data : message_data)
    (s : state) : state * list emitted :=
  let room := md_room data in
  let encrypted_map := md_encrypted_map data in
  let delete_on_read := md_delete_on_read data in
  let require_all_read := md_require_all_read data in
  let username := default "Unknown" (users s !! sid) in
  let file_url := md_fileUrl data in
  let file_name := md_fileName data in
  let expires_at := normalize_expiry now (md_expires_at data) in
  let plaintext := md_plaintext data in
  if unsafe_plaintext plaintext then
    (s, [(EvMessageRejected "Message contains unsafe content", ToSender sid)])
  else
    let msg :=
      Message.mk room username encrypted_map file_url file_name
                 None expires_at true false [] delete_on_read require_all_read in
    let id := fresh_id (db_message s) in
    (set_db_message (<[id := msg]> (db_message s)) s,
     [(EvMessage
         (MessagePayload id username plaintext encrypted_map file_url file_name
                         expires_at true false delete_on_read require_all_read),
       ToRoom room)]).

(** Lines 410-414 of [message_seen]: the decoded list of readers after the
    acknowledging user was appended, unless already there. *)
Definition add_reader (username : string) (readers : list string) : list string :=
  if bool_decide (username ∈ readers) then readers else readers ++ [username].

(** Lines 416-429 of [message_seen]: whether the message is deleted.
    [readers] is the list after [add_reader]. *)
Definition deletion_due (username : string) (readers : list string)
    (msg : Message.t) (s : state) : bool :=
  if Message.delete_on_read msg then
    if negb (Message.require_all_read msg) then
      negb (bool_decide (username = Message.username msg))
    else
      let room_users_set := default ∅ (rooms_users s !! Message.room msg) in
      bool_decide (room_users_set ≠ ∅) &&
      bool_decide (room_users_set ⊆ list_to_set readers ∪ {[Message.username msg]})
  else false.

(** [message_seen] *)
Definition message_seen (sid : string) (msg_id : Z) (s : state)
    : state * list emitted :=
  match db_message s !! msg_id with
  | None => (s, [])
  | Some msg =>
      let username := default "Unknown" (users s !! sid) in
      let readers := add_reader username (Message.readers msg) in
      let msg := Message.set_readers readers msg in
      let s1 := set_db_message (<[msg_id := msg]> (db_message s)) s in
      if deletion_due username readers msg s1 then
        (set_db_message (delete msg_id (db_message s1)) s1,
         [(EvDeleteMessage msg_id, ToRoom (Message.room msg))])
      else if negb (Message.read msg) then
        (set_db_message (<[msg_id := Message.set_read true msg]> (db_message s1)) s1,
         [(EvMessageRead msg_id (Message.room msg), ToRoom (Message.room msg))])
      else (s1, [])
  end.

(** [handle_typing] and [handle_stop_typing] *)
Definition handle_typing (sid : string) (room : option string) (s : state)
    : state * list emitted :=
  let username := users s !! sid in
  if truthy_str room
  then (s, [(EvTyping username, ToRoomSkip (default "" room) sid)])
  else (s, []).

Definition handle_stop_typing (sid : string) (room : option string) (s : state)
    : state * list emitted :=
  let username := users s !! sid in
  if truthy_str room
  then (s, [(EvStopTyping username, ToRoomSkip (default "" room) sid)])
  else (s, []).

(** ** Message routes (app.py)

    A route returns, with the state and the events, the status code of its
    response. *)

(** [DELETE /messages/delete/<msg_id>] *)
Definition delete_message (msg_id : Z) (s : state) : state * list emitted * Z :=
  match db_message s !! msg_id with
  | None => (s, [], 404)
  | Some msg =>
      (set_db_message (delete msg_id (db_message s)) s,
       [(EvDeleteMessage msg_id, ToRoom (Message.room msg))], 200)
  end.

(** [PUT /messages/edit/<msg_id>] *)
Definition edit_message (msg_id : Z) (data : edit_data) (s : state)
    : state * list emitted * Z :=
  let encrypted_map := or_map (ed_encrypted_map data) (ed_encryptedmap data) in
  if negb (truthy_map encrypted_map) then (s, [], 400)
  else
    let encrypted_map := default [] encrypted_map in
    match db_message s !! msg_id with
    | None => (s, [], 404)
    | Some msg =>
        (set_db_message (<[msg_id := Message.set_content encrypted_map msg]> (db_message s)) s,
         [(EvEditMessage msg_id encrypted_map, ToRoom (Message.room msg))], 200)
    end.

(** [POST /messages/read/<msg_id>] *)
Definition mark_read (msg_id : Z) (s : state) : state * list emitted * Z :=
  match db_message s !! msg_id with
  | None => (s, [], 404)
  | Some msg =>
      (set_db_message (<[msg_id := Message.set_read true msg]> (db_message s)) s,
       [(EvMessageRead msg_id (Message.room msg), ToRoom (Message.room msg))], 200)
  end.

(** ** Expiry sweep (app.py, delete_expired_messages) *)

(** [Message.expires_at != None] and [Message.expires_at <= now] *)
Definition expired (now : Z) (msg : Message.t) : bool :=
  match Message.expires_at msg with
  | Some e => bool_decide (e ≤ now)
  | None => false
  end.

(** The rows selected by the query, then one [db.session.delete] for each.
    The function emits nothing.  This is the body of the function as it
    runs with an application context; the scheduler of lines 66-68 calls
    it without pushing one (line 53 does push one). *)
Definition delete_expired_messages (now : Z) (s : state) : state * list emitted :=
  let expired_msgs := map_to_list (filter (λ kv, expired now kv.2) (db_message s)) in
  (set_db_message (foldl (λ t kv, delete kv.1 t) (db_message s) expired_msgs) s, []).

(** ** The server as a transition system *)

(** One inbound event: a Socket.IO event of a connection, a request to a
    message route, or one run of the scheduled sweep.  The reading of the
    clock ([datetime.now(timezone.utc)]) is part of the event. *)
Inductive event :=
  | Connect (sid : string)
  | Disconnect (sid : string)
  | Join (sid : string) (now : Z) (data : join_data)
  | Leave (sid : string) (data : leave_data)
  | SendMessage (sid : string) (now : Z) (data : message_data)
  | MessageSeen (sid : string) (msg_id : Z)
  | Typing (sid : string) (room : option string)
  | StopTyping (sid : string) (room : option string)
  | DeleteMessage (msg_id : Z)
  | EditMessage (msg_id : Z) (data : edit_data)
  | MarkRead (msg_id : Z)
  | Sweep (now : Z).

(** A handler that raises changes nothing and emits nothing. *)
Definition step `{PyHost} (ev : event) (s : state) : state * list emitted :=
  match ev with
  | Connect sid => on_connect sid s
  | Disconnect sid => on_disconnect sid s
  | Join sid now data => default (s, []) (on_join sid now data s)
  | Leave sid data => on_leave sid data s
  | SendMessage sid now data => handle_message sid now data s
  | MessageSeen sid msg_id => message_seen sid msg_id s
  | Typing sid room => handle_typing sid room s
  | StopTyping sid room => handle_stop_typing sid room s
  | DeleteMessage msg_id => (delete_message msg_id s).1
  | EditMessage msg_id data => (edit_message msg_id data s).1
  | MarkRead msg_id => (mark_read msg_id s).1
  | Sweep now => delete_expired_messages now s
  end.

(** A sequence of events, handled one after the other. *)
Fixpoint run `{PyHost} (evs : list event) (s : state) : state * list emitted :=
  match evs with
  | [] => (s, [])
  | ev :: evs' =>
      let '(s1, out1) := step ev s in
      let '(s2, out2) := run evs' s1 in
      (s2, out1 ++ out2)
  end.

Definition is_leave_or_disconnect (ev : event) : bool :=
  match ev with
  | Leave _ _ | Disconnect _ => true
  | _ => false
  end.

Definition is_join_of (sid : string) (ev : event) : bool :=
  match ev with
  | Join sid' _ _ => bool_decide (sid' = sid)
  | _ => false
  end.

(** The username a connection acts under: [users.get(request.sid, "Unknown")]. *)
Definition acting_username (sid : string) (s : state) : string :=
  default "Unknown" (users s !! sid).

(** [rooms_users.get(room, set())] *)
Definition roster (room : string) (s : state) : gset string :=
  default ∅ (rooms_users s !! room).

(** ** History route (app.py, get_messages) *)

(** One element of the JSON list of the response.  The times are the
    instants that [isoformat()] prints. *)
Record message_json := MessageJson {
  mj_id : Z;
  mj_username : string;
  mj_encrypted_map : envelope;
  mj_file_url : option string;
  mj_file_name : option string;
  mj_timestamp : Z;
  mj_expires_at : option Z;
  mj_delivered : bool;
  mj_read : bool;
  mj_delete_on_read : bool;
  mj_require_all_read : bool;
}.

(** The dictionary built for one row (lines 188-200): [None] when
    [m.timestamp.isoformat()] raises because [timestamp] is [None].
    [expires_at] is guarded in the source, [timestamp] is not. *)
Definition message_to_json (row : Z * Message.t) : option message_json :=
  match Message.timestamp row.2 with
  | Some t =>
      Some (MessageJson row.1 (Message.username row.2) (Message.content row.2)
              (Message.file_url row.2) (Message.file_name row.2) t
              (Message.expires_at row.2) (Message.delivered row.2)
              (Message.read row.2) (Message.delete_on_read row.2)
              (Message.require_all_read row.2))
  | None => None
  end.

(** The sort key of [order_by(Message.timestamp.asc())]: a null timestamp
    sorts before every instant. *)
Definition timestamp_key (row : Z * Message.t) : Z * Z :=
  match Message.timestamp row.2 with
  | None => (0, 0)
  | Some t => (1, t)
  end.

(** The order of the listing.  SQL leaves the order of rows with equal
    timestamps open; they are listed by id. *)
Definition row_le (a b : Z * Message.t) : Prop :=
  (timestamp_key a).1 < (timestamp_key b).1 ∨
  ((timestamp_key a).1 = (timestamp_key b).1 ∧
   ((timestamp_key a).2 < (timestamp_key b).2 ∨
    ((timestamp_key a).2 = (timestamp_key b).2 ∧ a.1 ≤ b.1))).

#[global] Instance row_le_dec (a b : Z * Message.t) : Decision (row_le a b).
Proof. unfold row_le. apply _. Defined.

(** The filter of the query: [Message.room == room] and, with a floor,
    [Message.timestamp >= min_time], which no row with a null timestamp
    satisfies. *)
Definition in_history (room : string) (min_time : option Z)
    (row : Z * Message.t) : bool :=
  bool_decide (Message.room row.2 = room) &&
  match min_time, Message.timestamp row.2 with
  | None, _ => true
  | Some t0, Some t => bool_decide (t0 ≤ t)
  | Some _, None => false
  end.

Definition query_messages (room : string) (min_time : option Z)
    (t : gmap Z Message.t) : list (Z * Message.t) :=
  merge_sort row_le (filter (λ row, in_history room min_time row) (map_to_list t)).

(** [GET /messages/<room>]: the JSON list, [None] when the handler raises.
    [username] is [request.args.get("username")]. *)
Definition get_messages (room : string) (username : option string) (s : state)
    : option (list message_json) :=
  let msgs :=
    if truthy_str username then
      match db_room_join s !! (room, default "" username) with
      | Some min_time => query_messages room (Some min_time) (db_message s)
      | None => []
      end
    else query_messages room None (db_message s) in
  mapM message_to_json msgs.

(** ** Public keys (app.py, get_public_key) *)

(** [GET /public-key/<username>]: the key and the status code. *)
Definition get_public_key (username : string) (s : state) : option string * Z :=
  match find_user username (db_user s) with
  | Some user =>
      if truthy_str (User.public_key user) then (User.public_key user, 200)
      else (None, 404)
  | None => (None, 404)
  end.

(** ** Upload file names (app.py, allowed_file) *)

Definition ALLOWED_EXTENSIONS : list string :=
  ["png"; "jpg"; "jpeg"; "gif"; "pdf"; "txt"; "doc"; "docx"].

(** [filename.rsplit(".", 1)[1]]: the text after the last dot, [None] when
    the name has no dot. *)
Fixpoint after_last_dot (filename : string) : option string :=
  match filename with
  | EmptyString => None
  | String c rest =>
      match after_last_dot rest with
      | Some ext => Some ext
      | None => if Ascii.eqb c "."%char then Some rest else None
      end
  end.

Definition allowed_file `{PyHost} (filename : string) : bool :=
  match after_last_dot filename with
  | Some ext => bool_decide (str_lower ext ∈ ALLOWED_EXTENSIONS)
  | None => false
  end.

(** ** Reactions (message_reactions.py, models.py MessageReaction) *)

Module Reactions.
(** A row of the table.  No row is ever deleted, so the table is the list
    of its rows in insertion order and the primary key of a row is its
    position, from 1. *)
Record row := Row {
  message_id : string;
  user_id : string;
  emoji : string;
}.

Record react_data := ReactData {
  rd_user_id : option string;
  rd_emoji : option string;
}.

(** The [reaction] event, emitted without a room: it goes to every
    connection. *)
Inductive broadcast :=
  | EvReaction (messageId : string).

(** [POST /api/messages/<message_id>/react] *)
Definition react_to_message (message_id : string) (data : react_data)
    (table : list row) : list row * list broadcast * Z :=
  if negb (truthy_str (rd_user_id data)) || negb (truthy_str (rd_emoji data))
  then (table, [], 400)
  else
    (table ++ [Row message_id (default "" (rd_user_id data))
                   (default "" (rd_emoji data))],
     [EvReaction message_id], 200).

Record reaction_json := ReactionJson {
  rj_id : Z;
  rj_user_id : string;
  rj_emoji : string;
}.

(** The rows of one message from position [k] on, with their keys. *)
Fixpoint reactions_from (k : Z) (message_id : string) (table : list row)
    : list reaction_json :=
  match table with
  | [] => []
  | r :: table' =>
      (if bool_decide (Reactions.message_id r = message_id)
       then [ReactionJson k (user_id r) (emoji r)] else [])
      ++ reactions_from (k + 1) message_id table'
  end.

(** [GET /api/messages/<message_id>/reactions] *)
Definition get_message_reactions (message_id : string) (table : list row)
    : list reaction_json :=
  reactions_from 1 message_id table.
End Reactions.

(** ** A host for test inputs

    ASCII lower-casing, decimal literals with an optional sign, and the
    exact conversion of milliseconds inside the range of [datetime]. *)
Module SampleHost.
Definition lower_ascii (c : ascii) : ascii :=
  let n := nat_of_ascii c in
  if (65 <=? n)%nat && (n <=? 90)%nat then ascii_of_nat (n + 32) else c.

Fixpoint lower (s : string) : string :=
  match s with
  | EmptyString => EmptyString
  | String c s' => String (lower_ascii c) (lower s')
  end.

Definition digit (c : ascii) : option Z :=
  let n := nat_of_ascii c in
  if (48 <=? n)%nat && (n <=? 57)%nat then Some (Z.of_nat (n - 48)) else None.

Fixpoint digits (acc : Z) (s : string) : option Z :=
  match s with
  | EmptyString => Some acc
  | String c s' =>
      match digit c with
      | Some d => digits (10 * acc + d) s'
      | None => None
      end
  end.

Definition parse_int (s : string) : option Z :=
  match s with
  | EmptyString => None
  | String "-"%char (String c s') => Z.opp <$> digits 0 (String c s')
  | String "+"%char (String c s') => digits 0 (String c s')
  | _ => digits 0 s
  end.

(** 0001-01-01 to 9999-12-31, in milliseconds since the epoch. *)
Definition fromtimestamp_ms (ms : Z) : option Z :=
  if bool_decide (-62135596800000 ≤ ms ≤ 253402300799999)
  then Some (ms * 1000) else None.

Definition host : PyHost :=
  {| str_lower := lower;
     int_of_str := parse_int;
     utc_fromtimestamp_ms := fromtimestamp_ms;
     str_lower_empty := eq_refl |}.
End SampleHost.

(** ** Example runs

    Every state below is reached from the empty server by the events
    listed.  Clock readings are microseconds since the epoch. *)
Module Scenario.
Definition t0 : Z := 1700000000000000.

Definition join (sid username room : string) (now : Z) : event :=
  Join sid now (JoinData (Some username) (Some room) None).

Definition send (sid room : string) (now : Z) (expires_at : pyval)
    (delete_on_read require_all_read : bool) (plaintext : option string) : event :=
  SendMessage sid now
    (MessageData room [("bob", "Y2lwaGVydGV4dA==")] expires_at
                 delete_on_read require_all_read None None plaintext).

(** A row as [send] creates it, with the given [read] and [readers]. *)
Definition row (author room : string) (expires_at : option Z) (read : bool)
    (readers : list string) (delete_on_read require_all_read : bool) : Message.t :=
  Message.mk room author [("bob", "Y2lwaGVydGV4dA==")] None None None expires_at
             true read readers delete_on_read require_all_read.

Definition exec (evs : list event) : state :=
  (run (H := SampleHost.host) evs initial_state).1.

(** alice and bob are in the lobby; alice has sent message 1, to be
    deleted on the first read. *)
Definition lobby : state :=
  exec [join "sid-alice" "alice" "lobby" t0;
        join "sid-bob" "bob" "lobby" (t0 + 1);
        send "sid-alice" "lobby" (t0 + 2) PNone true false None].

(** alice and bob are in the lobby; alice has sent message 1, which is
    not to be deleted on read. *)
Definition plain_lobby : state :=
  exec [join "sid-alice" "alice" "lobby" t0;
        join "sid-bob" "bob" "lobby" (t0 + 1);
        send "sid-alice" "lobby" (t0 + 2) PNone false false None].

(** alice, bob and carol are in the lobby; alice has sent message 1, to
    be deleted once all have read it; bob has acknowledged it. *)
Definition lobby_of_three : state :=
  exec [join "sid-alice" "alice" "lobby" t0;
        join "sid-bob" "bob" "lobby" (t0 + 1);
        join "sid-carol" "carol" "lobby" (t0 + 2);
        send "sid-alice" "lobby" (t0 + 3) PNone true true None;
        MessageSeen "sid-bob" 1].

(** alice has sent message 1, to be deleted once all have read it, and
    has disconnected: nobody is online in the lobby. *)
Definition deserted_lobby : state :=
  exec [join "sid-alice" "alice" "lobby" t0;
        send "sid-alice" "lobby" (t0 + 1) PNone true true None;
        Disconnect "sid-alice"].

(** alice has sent message 1, which expires one minute after [t0]. *)
Definition lobby_with_expiring : state :=
  exec [join "sid-alice" "alice" "lobby" t0;
        send "sid-alice" "lobby" (t0 + 1) (PInt 1700000060000) false false None].

(** alice is in the lobby and, on the same connection, in the kitchen. *)
Definition two_rooms : state :=
  exec [join "sid-alice" "alice" "lobby" t0;
        join "sid-alice" "alice" "kitchen" (t0 + 1)].
End Scenario.

(** ** Further example inputs *)
Module Tour.
(** carol joins the lobby with a public key. *)
Definition carol : join_data :=
  JoinData (Some "carol") (Some "lobby") (Some "carol-key").

Definition carol_joined : state * list emitted :=
  default (Scenario.lobby, [])
    (on_join "sid-carol" (Scenario.t0 + 5) carol Scenario.lobby).

(** A message event with the given [expires_at] and no preview. *)
Definition note (expires_at : pyval) : message_data :=
  MessageData "lobby" [("bob", "Y2lwaGVydGV4dA==")] expires_at false false
              None None None.

(** The events behind [Scenario.lobby_of_three]. *)
Definition story : list event :=
  [Scenario.join "sid-alice" "alice" "lobby" Scenario.t0;
   Scenario.join "sid-bob" "bob" "lobby" (Scenario.t0 + 1);
   Scenario.join "sid-carol" "carol" "lobby" (Scenario.t0 + 2);
   Scenario.send "sid-alice" "lobby" (Scenario.t0 + 3) PNone true true None;
   MessageSeen "sid-bob" 1].

(** A message table whose rows carry timestamps, as a writer other than
    [handle_message] would leave it, and the join of bob to the lobby at
    time 20. *)
Definition dated (room author : string) (t : Z) : Message.t :=
  Message.mk room author [] None None (Some t) None true false [] false false.

Definition archive : state :=
  State ∅ ∅ [] {[("lobby", "bob") := 20]}
        {[1 := dated "lobby" "alice" 10; 2 := dated "lobby" "alice" 30;
          3 := dated "hall" "bob" 40; 4 := dated "lobby" "bob" 20]}.

Definition thumbs_up : Reactions.react_data :=
  Reactions.ReactData (Some "bob") (Some "+1").
End Tour.

(** ** Predicates used by the statements *)

(** The account part of [on_join] raises for this username: no account
    has the name and the address it would get is taken. *)
Definition join_blocked (username : string) (t : list User.t) : Prop :=
  find_user username t = None ∧
  email_taken (username +:+ "@example.com") t = true.

(** A join of [username] to [room] would not add to the roster: the event
    would be ignored, or the username is on the roster already, or the
    handler would raise. *)
Definition settled (username room : option string) (s : state) : Prop :=
  truthy_str username = false ∨
  truthy_str room = false ∨
  default "" username ∈ roster (default "" room) s ∨
  join_blocked (default "" username) (db_user s).

(** How a row may differ after an operation from what it was before:
    only in [content], in [read], which is never cleared, and in [readers],
    which gains at most one username, and then [read] is set. *)
Definition evolves (m m' : Message.t) : Prop :=
  Message.room m' = Message.room m ∧
  Message.username m' = Message.username m ∧
  Message.file_url m' = Message.file_url m ∧
  Message.file_name m' = Message.file_name m ∧
  Message.timestamp m' = Message.timestamp m ∧
  Message.expires_at m' = Message.expires_at m ∧
  Message.delivered m' = Message.delivered m ∧
  Message.delete_on_read m' = Message.delete_on_read m ∧
  Message.require_all_read m' = Message.require_all_read m ∧
  (Message.read m = true → Message.read m' = true) ∧
  (Message.readers m' = Message.readers m ∨
   ∃ u, Message.readers m' = add_reader u (Message.readers m) ∧
        Message.read m' = true).

(** What holds of every row the handlers can produce. *)
Definition well_formed_message (m : Message.t) : Prop :=
  Message.timestamp m = None ∧
  Message.delivered m = true ∧
  NoDup (Message.readers m) ∧
  (Message.readers m ≠ [] → Message.read m = true).

(** What holds of the presence dictionaries the handlers can produce. *)
Definition well_formed_presence (s : state) : Prop :=
  (∀ sid u, users s !! sid = Some u → u ≠ "") ∧
  (∀ r X, rooms_users s !! r = Some X → r ≠ "" ∧ "" ∉ X).

(** ** Tactics

    Closed goals about the example runs are settled by evaluation. *)
Ltac by_compute := vm_compute; first [reflexivity | discriminate | done].
Ltac decide_by_compute := apply (bool_decide_eq_true_1 _); vm_compute; reflexivity.
Ltac refute_by_compute := apply (bool_decide_eq_false_1 _); vm_compute; reflexivity.

(** * Properties *)

(** ** Substrings *)

Lemma append_cons (c : ascii) (a b : string) :
  String c a +:+ b = String c (a +:+ b).
Proof. reflexivity. Qed.

Lemma prefix_spec (kw s : string) :
  String.prefix kw s = true ↔ ∃ b, s = kw +:+ b.
Proof.
  revert s. induction kw as [|c kw IH]; intros s.
  - split; [intros _; by exists s | by destruct s].
  - destruct s as [|c' s].
    + split; [done | intros [b Hb]; discriminate].
    + change (String.prefix (String c kw) (String c' s))
        with (if Ascii.ascii_dec c c' then String.prefix kw s else false).
      destruct (Ascii.ascii_dec c c') as [-> | Hne].
      * rewrite IH. split; intros [b Hb]; exists b.
        -- by rewrite Hb.
        -- rewrite append_cons in Hb. by injection Hb.
      * split; [done|].
        intros [b Hb]. rewrite append_cons in Hb. injection Hb. congruence.
Qed.

Lemma contains_spec (kw s : string) :
  contains kw s = true ↔ ∃ a b, s = a +:+ kw +:+ b.
Proof.
  induction s as [|c s IH].
  - cbn [contains]. rewrite orb_false_r, prefix_spec. split.
    + intros [b Hb]. by exists "", b.
    + intros [a [b Hab]]. destruct a; [by exists b | discriminate].
  - cbn [contains]. rewrite orb_true_iff, prefix_spec, IH. split.
    + intros [[b Hb]|[a [b Hab]]].
      * by exists "", b.
      * exists (String c a), b. by rewrite append_cons, Hab.
    + intros [a [b Hab]]. destruct a as [|c' a].
      * left. by exists b.
      * right. exists a, b. rewrite append_cons in Hab. by injection Hab.
Qed.

Lemma is_content_safe_false `{PyHost} (text kw : string) :
  kw ∈ unsafe_keywords →
  (∃ a b, str_lower text = a +:+ kw +:+ b) →
  is_content_safe (Some text) = false.
Proof.
  intros Hkw Hsub. unfold is_content_safe.
  apply negb_false_iff, existsb_exists. exists kw. split.
  - by apply list_elem_of_In.
  - by apply contains_spec.
Qed.

(** ** Fresh ids *)

Lemma fresh_id_above (t : gmap Z Message.t) (i : Z) :
  is_Some (t !! i) → i < fresh_id t.
Proof.
  unfold fresh_id. intros Hi.
  enough (i ≤ map_fold (λ i _ acc, Z.max i acc) 0 t) by lia.
  revert i Hi.
  apply (map_fold_weak_ind (λ r (m : gmap Z Message.t), ∀ i, is_Some (m !! i) → i ≤ r)).
  - intros i [x Hx]. by rewrite lookup_empty in Hx.
  - intros j x m r _ IH i Hi.
    destruct (decide (j = i)) as [-> | Hne]; [lia|].
    rewrite lookup_insert_ne in Hi by done. specialize (IH i Hi). lia.
Qed.

Lemma fresh_id_unused (t : gmap Z Message.t) : t !! fresh_id t = None.
Proof.
  destruct (t !! fresh_id t) eqn:E; [|done].
  assert (fresh_id t < fresh_id t) by (apply fresh_id_above; eauto). lia.
Qed.

(** ** Create: [handle_message] *)

Lemma unsafe_keywords_nonempty (kw : string) : kw ∈ unsafe_keywords → kw ≠ "".
Proof.
  unfold unsafe_keywords. rewrite !elem_of_cons, elem_of_nil.
  intros [->|[->|[->|[->|[->|[]]]]]]; discriminate.
Qed.

Lemma append_empty_inv (a b : string) : "" = a +:+ b → a = "" ∧ b = "".
Proof. destruct a; [intros Hb; split; [done | by symmetry] | discriminate]. Qed.

Lemma unsafe_plaintext_true `{PyHost} (text kw : string) :
  kw ∈ unsafe_keywords →
  (∃ a b, str_lower text = a +:+ kw +:+ b) →
  unsafe_plaintext (Some text) = true.
Proof.
  intros Hkw Hsub. unfold unsafe_plaintext.
  rewrite (is_content_safe_false text kw) by done.
  destruct text as [|c text]; [|done].
  destruct Hsub as (a & b & Hab). rewrite str_lower_empty in Hab.
  apply append_empty_inv in Hab as [_ Hab]. symmetry in Hab.
  apply append_empty_inv in Hab as [Hkw' _].
  by apply unsafe_keywords_nonempty in Hkw.
Qed.

(** The row written by [handle_message] when the message is accepted. *)
Lemma handle_message_accepted `{PyHost} (sid : string) (now : Z)
    (data : message_data) (s : state) :
  unsafe_plaintext (md_plaintext data) = false →
  let id := fresh_id (db_message s) in
  let msg :=
    Message.mk (md_room data) (acting_username sid s) (md_encrypted_map data)
               (md_fileUrl data) (md_fileName data) None
               (normalize_expiry now (md_expires_at data)) true false []
               (md_delete_on_read data) (md_require_all_read data) in
  db_message s !! id = None ∧
  db_message (handle_message sid now data s).1 = <[id := msg]> (db_message s) ∧
  users (handle_message sid now data s).1 = users s ∧
  rooms_users (handle_message sid now data s).1 = rooms_users s.
Proof.
  intros Hsafe. unfold handle_message. rewrite Hsafe. simpl.
  split; [apply fresh_id_unused | done].
Qed.

(** C8. A message event whose plaintext preview, lower-cased, contains one
    of the unsafe keywords as a substring is rejected: the state (and so the
    message table) is unchanged, and the only event emitted is
    [message_rejected], sent to the calling connection; no [message] event
    is broadcast. *)
Theorem handle_message_rejects_unsafe `{PyHost} (sid : string) (now : Z)
    (data : message_data) (s : state) (text kw : string) :
  md_plaintext data = Some text →
  kw ∈ unsafe_keywords →
  (∃ a b, str_lower text = a +:+ kw +:+ b) →
  handle_message sid now data s =
    (s, [(EvMessageRejected "Message contains unsafe content", ToSender sid)]).
Proof.
  intros Htext Hkw Hsub. unfold handle_message.
  by rewrite Htext, (unsafe_plaintext_true text kw).
Qed.

(** C4. Every message persisted by [handle_message] is a new row whose
    [timestamp] is null: the constructor call passes no timestamp and the
    column has no default. *)
Theorem handle_message_timestamp_null `{PyHost} (sid : string) (now : Z)
    (data : message_data) (s : state) :
  unsafe_plaintext (md_plaintext data) = false →
  ∃ msg,
    db_message s !! fresh_id (db_message s) = None ∧
    db_message (handle_message sid now data s).1 !! fresh_id (db_message s) = Some msg ∧
    Message.timestamp msg = None.
Proof.
  intros Hsafe.
  destruct (handle_message_accepted sid now data s Hsafe) as (Hnew & -> & _).
  eexists. split; [done|]. by rewrite lookup_insert_eq.
Qed.

(** C6, as amended. An accepted message is persisted with an expiry that
    depends on the supplied [expires_at] value: a value that is false as a
    condition (absent, [None], the integer 0) gives no expiry at all; a
    true value that converts to an instant at or before the current time
    gives the current time plus one second. *)
Theorem handle_message_expiry `{PyHost} (sid : string) (now : Z)
    (data : message_data) (s : state) :
  unsafe_plaintext (md_plaintext data) = false →
  ∃ msg,
    db_message (handle_message sid now data s).1 !! fresh_id (db_message s) = Some msg ∧
    (truthy (md_expires_at data) = false → Message.expires_at msg = None) ∧
    (∀ ms d,
       truthy (md_expires_at data) = true →
       py_int (md_expires_at data) = Some ms →
       utc_fromtimestamp_ms ms = Some d →
       d ≤ now →
       Message.expires_at msg = Some (now + one_second)).
Proof.
  intros Hsafe.
  destruct (handle_message_accepted sid now data s Hsafe) as (_ & -> & _).
  eexists. split; [by rewrite lookup_insert_eq|]. simpl. unfold normalize_expiry. split.
  - by intros ->.
  - intros ms d -> -> Hd Hle. simpl. rewrite Hd. by rewrite bool_decide_eq_true_2.
Qed.

(** ** Acknowledge: [message_seen] *)

Lemma message_seen_missing (sid : string) (msg_id : Z) (s : state) :
  db_message s !! msg_id = None → message_seen sid msg_id s = (s, []).
Proof. intros Hnone. unfold message_seen. by rewrite Hnone. Qed.

(** The three ways out of [message_seen] for a message that exists. *)
Lemma message_seen_found (sid : string) (msg_id : Z) (s : state) (msg : Message.t) :
  db_message s !! msg_id = Some msg →
  let username := acting_username sid s in
  let readers := add_reader username (Message.readers msg) in
  let msg1 := Message.set_readers readers msg in
  message_seen sid msg_id s =
    if deletion_due username readers msg s then
      (set_db_message (delete msg_id (db_message s)) s,
       [(EvDeleteMessage msg_id, ToRoom (Message.room msg))])
    else if negb (Message.read msg) then
      (set_db_message (<[msg_id := Message.set_read true msg1]> (db_message s)) s,
       [(EvMessageRead msg_id (Message.room msg), ToRoom (Message.room msg))])
    else (set_db_message (<[msg_id := msg1]> (db_message s)) s, []).
Proof.
  intros Hmsg. unfold message_seen, acting_username. rewrite Hmsg. cbn zeta.
  set (username := default "Unknown" (users s !! sid)).
  set (readers := add_reader username (Message.readers msg)).
  change (deletion_due username readers (Message.set_readers readers msg)
            (set_db_message (<[msg_id:=Message.set_readers readers msg]> (db_message s)) s))
    with (deletion_due username readers msg s).
  destruct (deletion_due username readers msg s).
  - unfold set_db_message. simpl. by rewrite delete_insert_eq.
  - simpl. destruct (Message.read msg); simpl; [done|].
    unfold set_db_message. simpl. by rewrite insert_insert_eq.
Qed.

Lemma message_seen_presence (sid : string) (msg_id : Z) (s : state) :
  users (message_seen sid msg_id s).1 = users s ∧
  rooms_users (message_seen sid msg_id s).1 = rooms_users s.
Proof.
  destruct (db_message s !! msg_id) as [msg|] eqn:Hmsg.
  - rewrite (message_seen_found sid msg_id s msg Hmsg). cbn zeta.
    by repeat case_match.
  - by rewrite message_seen_missing.
Qed.

Lemma elem_of_add_reader (u username : string) (readers : list string) :
  u ∈ add_reader username readers ↔ u ∈ readers ∨ u = username.
Proof.
  unfold add_reader. case_bool_decide as Hin.
  - split; [by left | intros [? | ->]; done].
  - by rewrite elem_of_app, list_elem_of_singleton.
Qed.

(** C1, as amended. For a message with [delete_on_read] set and
    [require_all_read] clear: an acknowledgement under the author's
    username keeps the message, records the author in [readers] and leaves
    [read] set, broadcasting [message_read] when it was clear before; an
    acknowledgement under any other username deletes the message and emits
    exactly one event, [delete_message], to the room of the message. *)
Theorem message_seen_delete_on_read (sid : string) (msg_id : Z) (s : state)
    (msg : Message.t) :
  db_message s !! msg_id = Some msg →
  Message.delete_on_read msg = true →
  Message.require_all_read msg = false →
  (acting_username sid s = Message.username msg →
     ∃ msg',
       db_message (message_seen sid msg_id s).1 !! msg_id = Some msg' ∧
       Message.read msg' = true ∧
       Message.username msg ∈ Message.readers msg' ∧
       (message_seen sid msg_id s).2 =
         if Message.read msg then []
         else [(EvMessageRead msg_id (Message.room msg), ToRoom (Message.room msg))]) ∧
  (acting_username sid s ≠ Message.username msg →
     db_message (message_seen sid msg_id s).1 !! msg_id = None ∧
     (message_seen sid msg_id s).2 =
       [(EvDeleteMessage msg_id, ToRoom (Message.room msg))]).
Proof.
  intros Hmsg Hdel Hall. rewrite (message_seen_found sid msg_id s msg Hmsg). cbn zeta.
  unfold deletion_due. rewrite Hdel, Hall. simpl. split.
  - intros Hauthor. rewrite bool_decide_eq_true_2 by done. simpl.
    destruct (Message.read msg) eqn:Hread; simpl; rewrite lookup_insert_eq;
      eexists; (split; [done|]); simpl; (split; [done|]);
      (split; [|done]); apply elem_of_add_reader; by right.
  - intros Hother. rewrite bool_decide_eq_false_2 by done. simpl.
    by rewrite lookup_delete_eq.
Qed.

(** C2, as amended. For a message with [delete_on_read] and
    [require_all_read] set, an acknowledgement deletes the message if and
    only if the online roster of its room is not empty and is a subset of
    the readers, the acknowledging user among them, together with the
    author. *)
Theorem message_seen_require_all_read (sid : string) (msg_id : Z) (s : state)
    (msg : Message.t) :
  db_message s !! msg_id = Some msg →
  Message.delete_on_read msg = true →
  Message.require_all_read msg = true →
  db_message (message_seen sid msg_id s).1 !! msg_id = None ↔
    roster (Message.room msg) s ≠ ∅ ∧
    roster (Message.room msg) s ⊆
      list_to_set (add_reader (acting_username sid s) (Message.readers msg))
      ∪ {[Message.username msg]}.
Proof.
  intros Hmsg Hdel Hall. rewrite (message_seen_found sid msg_id s msg Hmsg). cbn zeta.
  unfold deletion_due, roster. rewrite Hdel, Hall. simpl.
  set (R := default ∅ (rooms_users s !! Message.room msg)).
  set (A := list_to_set _ ∪ _).
  destruct (decide (R ≠ ∅)) as [Hne|He], (decide (R ⊆ A)) as [Hsub|Hnsub].
  - rewrite !bool_decide_eq_true_2 by done. simpl. by rewrite lookup_delete_eq.
  - rewrite bool_decide_eq_true_2, bool_decide_eq_false_2 by done. simpl.
    split; [|tauto]. by destruct (Message.read msg); simpl; rewrite lookup_insert_eq.
  - rewrite bool_decide_eq_false_2 by done. simpl.
    split; [|tauto]. by destruct (Message.read msg); simpl; rewrite lookup_insert_eq.
  - rewrite bool_decide_eq_false_2 by done. simpl.
    split; [|tauto]. by destruct (Message.read msg); simpl; rewrite lookup_insert_eq.
Qed.

Lemma run_cons `{PyHost} (ev : event) (evs : list event) (s : state) :
  (run (ev :: evs) s).1 = (run evs (step ev s).1).1.
Proof.
  simpl. destruct (step ev s) as [s1 out1]. simpl. by destruct (run evs s1).
Qed.

Lemma acks_missing `{PyHost} (sids : list string) (msg_id : Z) (s : state) :
  db_message s !! msg_id = None →
  (run ((λ sid, MessageSeen sid msg_id) <$> sids) s).1 = s.
Proof.
  intros Hnone. induction sids as [|sid sids IH]; [done|].
  rewrite fmap_cons, run_cons. simpl. by rewrite message_seen_missing.
Qed.

(** C7, as amended. After any sequence of acknowledgements of a message
    that is still persisted, [readers] holds the usernames it held before
    and the usernames the acknowledgements were made under, the author's
    like any other: the author is in [readers] exactly when the author was
    there before or one of the acknowledgements was made under the author's
    username. *)
Theorem readers_after_acknowledgements `{PyHost} (sids : list string) (msg_id : Z)
    (s : state) (msg msg' : Message.t) :
  db_message s !! msg_id = Some msg →
  db_message (run ((λ sid, MessageSeen sid msg_id) <$> sids) s).1 !! msg_id = Some msg' →
  Message.username msg' = Message.username msg ∧
  ∀ u, u ∈ Message.readers msg' ↔
       u ∈ Message.readers msg ∨ ∃ sid, sid ∈ sids ∧ acting_username sid s = u.
Proof.
  revert s msg. induction sids as [|sid sids IH]; intros s msg Hmsg Hend.
  - simpl in Hend. rewrite Hmsg in Hend. injection Hend as <-. split; [done|].
    intros u. split; [by left|]. intros [?|(sid & Hsid & _)]; [done|].
    by apply elem_of_nil in Hsid.
  - rewrite fmap_cons, run_cons in Hend. simpl in Hend.
    pose proof (message_seen_presence sid msg_id s) as [Husers _].
    pose proof (message_seen_found sid msg_id s msg Hmsg) as Hseen. cbn zeta in Hseen.
    set (s1 := (message_seen sid msg_id s).1) in *.
    assert (∀ sid', acting_username sid' s1 = acting_username sid' s) as Hact.
    { intros sid'. unfold acting_username. by rewrite Husers. }
    assert (db_message s1 !! msg_id = None ∨
            ∃ m1, db_message s1 !! msg_id = Some m1 ∧
                  Message.username m1 = Message.username msg ∧
                  Message.readers m1 =
                    add_reader (acting_username sid s) (Message.readers msg))
      as [Hgone|(m1 & Hm1 & Hauthor & Hreaders)].
    { subst s1. rewrite Hseen. repeat case_match; simpl.
      - left. apply lookup_delete_eq.
      - right. eexists. by rewrite lookup_insert_eq.
      - right. eexists. by rewrite lookup_insert_eq. }
    + rewrite acks_missing in Hend by done. congruence.
    + destruct (IH s1 m1 Hm1 Hend) as [Hauthor' Hiff]. split; [congruence|].
      intros u. rewrite Hiff, Hreaders, elem_of_add_reader. split.
      * intros [[? | ->]|(sid' & Hin & Hu)].
        -- by left.
        -- right. exists sid. split; [apply list_elem_of_here | done].
        -- right. exists sid'. split; [by apply list_elem_of_further|].
           by rewrite <- Hact.
      * intros [?|(sid' & Hin & Hu)]; [by left; left|].
        apply elem_of_cons in Hin as [-> | Hin]; [by left; right|].
        right. exists sid'. by rewrite Hact.
Qed.

(** ** Expiry sweep: [delete_expired_messages] *)

Lemma foldl_delete_lookup (l : list (Z * Message.t)) (t : gmap Z Message.t) (i : Z) :
  foldl (λ t kv, delete kv.1 t) t l !! i =
    if bool_decide (i ∈ l.*1) then None else t !! i.
Proof.
  revert t. induction l as [|[j x] l IH]; intros t.
  - done.
  - rewrite fmap_cons. cbn [foldl fst]. rewrite IH.
    rewrite lookup_delete, (bool_decide_ext _ _ (elem_of_cons (l.*1) i j)).
    destruct (decide (j = i)) as [Heq|Hne]; do 2 case_bool_decide; try done;
      first [ tauto | intuition congruence ].
Qed.

(** One run of the sweep removes exactly the rows whose [expires_at] is set
    and at or before [now], keeps every other row, leaves the presence
    dictionaries alone, and emits no event, whatever it removed. *)
Lemma delete_expired_messages_spec (now : Z) (s : state) :
  (delete_expired_messages now s).2 = [] ∧
  users (delete_expired_messages now s).1 = users s ∧
  rooms_users (delete_expired_messages now s).1 = rooms_users s ∧
  db_user (delete_expired_messages now s).1 = db_user s ∧
  ∀ i, db_message (delete_expired_messages now s).1 !! i =
       match db_message s !! i with
       | Some msg => if expired now msg then None else Some msg
       | None => None
       end.
Proof.
  unfold delete_expired_messages. simpl. repeat (split; [done|]).
  intros i. rewrite foldl_delete_lookup.
  destruct (db_message s !! i) as [msg|] eqn:Hmsg.
  - destruct (expired now msg) eqn:Hexp.
    + rewrite bool_decide_eq_true_2; [done|].
      apply list_elem_of_fmap. exists (i, msg). split; [done|].
      apply elem_of_map_to_list, map_lookup_filter_Some. split; [done|].
      simpl. by rewrite Hexp.
    + rewrite bool_decide_eq_false_2; [done|].
      intros ([j x] & -> & Hin)%list_elem_of_fmap.
      apply elem_of_map_to_list, map_lookup_filter_Some in Hin as [Hx Hexp'].
      simpl in *. rewrite Hmsg in Hx. injection Hx as <-. by rewrite Hexp in Hexp'.
  - case_bool_decide as Hin; done.
Qed.

(** ** The read flag across all operations *)

Lemma on_disconnect_db_message (sid : string) (s : state) :
  db_message (on_disconnect sid s).1 = db_message s.
Proof. unfold on_disconnect. by case_match. Qed.

Lemma on_join_db_message (sid : string) (now : Z) (data : join_data) (s : state) :
  db_message (default (s, []) (on_join sid now data s)).1 = db_message s.
Proof. unfold on_join. by repeat case_match. Qed.

Lemma on_leave_db_message (sid : string) (data : leave_data) (s : state) :
  db_message (on_leave sid data s).1 = db_message s.
Proof. unfold on_leave. by repeat case_match. Qed.

Lemma message_seen_other (sid : string) (msg_id i : Z) (s : state) :
  i ≠ msg_id →
  db_message (message_seen sid msg_id s).1 !! i = db_message s !! i.
Proof.
  intros Hne. destruct (db_message s !! msg_id) as [msg|] eqn:Hmsg.
  - rewrite (message_seen_found sid msg_id s msg Hmsg). cbn zeta.
    repeat case_match; simpl;
      by rewrite ?lookup_delete_ne, ?lookup_insert_ne by done.
  - by rewrite message_seen_missing.
Qed.

(** C5, as amended. Whatever the operation, a message that is persisted
    with [read] set after it was already persisted with [read] set before
    it, or the operation is [message_seen] for this message and the
    acknowledging username is in [readers] afterwards, or the operation is
    the mark-read request for this message, which sets [read] and leaves
    [readers] as it was (empty, if it was empty). *)
Theorem read_flag_origin `{PyHost} (ev : event) (s : state) (i : Z)
    (msg' : Message.t) :
  db_message (step ev s).1 !! i = Some msg' →
  Message.read msg' = true →
  (∃ msg, db_message s !! i = Some msg ∧ Message.read msg = true) ∨
  (∃ sid, ev = MessageSeen sid i ∧
          acting_username sid s ∈ Message.readers msg') ∨
  (ev = MarkRead i ∧
   ∃ msg, db_message s !! i = Some msg ∧
          Message.readers msg' = Message.readers msg).
Proof.
  intros Hafter Hread.
  assert (db_message s !! i = Some msg' →
          ∃ msg, db_message s !! i = Some msg ∧ Message.read msg = true)
    as Hsame by eauto.
  destruct ev as [sid|sid|sid now data|sid data|sid now data|sid msg_id
                  |sid room|sid room|msg_id|msg_id data|msg_id|now];
    simpl in Hafter.
  - left. by apply Hsame.
  - left. apply Hsame. by rewrite on_disconnect_db_message in Hafter.
  - left. apply Hsame. by rewrite on_join_db_message in Hafter.
  - left. apply Hsame. by rewrite on_leave_db_message in Hafter.
  - left. apply Hsame. unfold handle_message in Hafter.
    destruct (unsafe_plaintext (md_plaintext data)); [done|]. simpl in Hafter.
    destruct (decide (fresh_id (db_message s) = i)) as [<-|Hne].
    + rewrite lookup_insert_eq in Hafter. injection Hafter as <-. discriminate.
    + by rewrite lookup_insert_ne in Hafter.
  - destruct (decide (i = msg_id)) as [->|Hne].
    2:{ left. apply Hsame. by rewrite message_seen_other in Hafter. }
    destruct (db_message s !! msg_id) as [msg|] eqn:Hmsg.
    2:{ rewrite message_seen_missing in Hafter by done. simpl in Hafter. congruence. }
    rewrite (message_seen_found sid msg_id s msg Hmsg) in Hafter. cbn zeta in Hafter.
    destruct (deletion_due _ _ msg s); simpl in Hafter.
    { by rewrite lookup_delete_eq in Hafter. }
    destruct (Message.read msg) eqn:Hwas; simpl in Hafter;
      rewrite lookup_insert_eq in Hafter; injection Hafter as <-.
    + left. eauto.
    + right. left. exists sid. split; [done|]. simpl.
      apply elem_of_add_reader. by right.
  - left. unfold handle_typing in Hafter. apply Hsame. by case_match.
  - left. unfold handle_stop_typing in Hafter. apply Hsame. by case_match.
  - left. apply Hsame. unfold delete_message in Hafter.
    destruct (db_message s !! msg_id) eqn:Hmsg; simpl in Hafter; [|done].
    by apply lookup_delete_Some in Hafter as [_ ?].
  - left. unfold edit_message in Hafter.
    destruct (negb _); simpl in Hafter; [by apply Hsame|].
    destruct (db_message s !! msg_id) as [msg|] eqn:Hmsg; simpl in Hafter;
      [|by apply Hsame].
    destruct (decide (msg_id = i)) as [->|Hne].
    + rewrite lookup_insert_eq in Hafter. injection Hafter as <-. eauto.
    + rewrite lookup_insert_ne in Hafter by done. by apply Hsame.
  - unfold mark_read in Hafter.
    destruct (db_message s !! msg_id) as [msg|] eqn:Hmsg; simpl in Hafter;
      [|left; by apply Hsame].
    destruct (decide (msg_id = i)) as [->|Hne].
    + rewrite lookup_insert_eq in Hafter. injection Hafter as <-.
      right. right. eauto.
    + rewrite lookup_insert_ne in Hafter by done. left. by apply Hsame.
  - left. apply Hsame.
    destruct (delete_expired_messages_spec now s) as (_ & _ & _ & _ & Hdb).
    rewrite Hdb in Hafter. destruct (db_message s !! i) as [msg|]; [|done].
    by destruct (expired now msg).
Qed.

(** ** Presence: [on_join], [on_leave], [on_disconnect] *)

(** Events other than join, leave and disconnect leave the presence
    dictionaries and the accounts alone. *)
Lemma step_frame `{PyHost} (ev : event) (s : state) :
  match ev with
  | Join _ _ _ | Leave _ _ | Disconnect _ => True
  | _ => users (step ev s).1 = users s ∧
         rooms_users (step ev s).1 = rooms_users s ∧
         db_user (step ev s).1 = db_user s
  end.
Proof.
  destruct ev; simpl; try done.
  - unfold handle_message. by case_match.
  - unfold message_seen. by repeat case_match.
  - unfold handle_typing. by case_match.
  - unfold handle_stop_typing. by case_match.
  - unfold delete_message. by case_match.
  - unfold edit_message. by repeat case_match.
  - unfold mark_read. by case_match.
Qed.

Lemma find_user_None (username : string) (t : list User.t) :
  find_user username t = None ↔ username ∉ User.username <$> t.
Proof.
  unfold find_user. induction t as [|u t IH]; simpl.
  - split; [intros _; apply not_elem_of_nil | done].
  - rewrite not_elem_of_cons. case_bool_decide as Hu.
    + split; [done | intros [Hne _]; congruence].
    + rewrite IH. split; [intros ?; split; [congruence | done] | tauto].
Qed.

Lemma email_taken_true (e : string) (t : list User.t) :
  email_taken e t = true ↔ e ∈ User.email <$> t.
Proof.
  unfold email_taken. induction t as [|u t IH]; simpl.
  - split; [done | by intros ?%elem_of_nil].
  - rewrite orb_true_iff, IH, elem_of_cons, bool_decide_eq_true.
    split; intros [?|?]; auto.
Qed.

Lemma set_public_key_columns (username : string) (public_key : option string)
    (t : list User.t) :
  User.username <$> set_public_key username public_key t = User.username <$> t ∧
  User.email <$> set_public_key username public_key t = User.email <$> t.
Proof.
  induction t as [|u t [IH1 IH2]]; [done|]. cbn [set_public_key].
  case_bool_decide; rewrite !fmap_cons; [done|]. by rewrite IH1, IH2.
Qed.

Lemma join_user_blocked (username : string) (public_key : option string)
    (t : list User.t) :
  join_blocked username t → join_user username public_key t = None.
Proof. intros [Hfind Hemail]. unfold join_user. by rewrite Hfind, Hemail. Qed.

Lemma join_user_keeps_blocked (u username : string) (public_key : option string)
    (t t' : list User.t) :
  join_user username public_key t = Some t' →
  join_blocked u t → join_blocked u t'.
Proof.
  intros Hjoin Hblocked.
  destruct (decide (username = u)) as [-> | Hne].
  { by rewrite join_user_blocked in Hjoin. }
  destruct Hblocked as [Hfind Hemail]. unfold join_blocked.
  rewrite find_user_None, email_taken_true in *.
  unfold join_user in Hjoin. repeat case_match; simplify_eq; try done.
  - by destruct (set_public_key_columns username public_key t) as [-> ->].
  - rewrite !fmap_app. split.
    + rewrite elem_of_app. intros [?|Hin]; [done|].
      apply list_elem_of_singleton in Hin. simpl in Hin. congruence.
    + apply elem_of_app. by left.
Qed.

(** What [on_join] does when it neither ignores the event nor raises. *)
Lemma on_join_effective (sid : string) (now : Z) (data : join_data) (s : state)
    (t' : list User.t) :
  truthy_str (jd_username data) = true →
  truthy_str (jd_room data) = true →
  let username := default "" (jd_username data) in
  let room := default "" (jd_room data) in
  join_user username (jd_publicKey data) (db_user s) = Some t' →
  on_join sid now data s =
    Some (State (<[sid := username]> (users s))
                (<[room := {[username]} ∪ roster room s]> (rooms_users s))
                t'
                (<[(room, username) := now]> (db_room_join s))
                (db_message s),
          (if bool_decide (username ∈ roster room s) then []
           else [(EvStatus (username +:+ " has entered the room."),
                  ToRoomSkip room sid)])
          ++ [(EvOnlineUsers ({[username]} ∪ roster room s), ToRoom room)]).
Proof.
  intros Hu Hr username room Hjoin. unfold on_join. rewrite Hu, Hr. simpl.
  fold username room. rewrite Hjoin. simpl. unfold roster.
  by destruct (bool_decide _).
Qed.

(** [on_join] either changes nothing or does the above. *)
Lemma on_join_cases (sid : string) (now : Z) (data : join_data) (s : state) :
  default (s, []) (on_join sid now data s) = (s, []) ∨
  ∃ t',
    join_user (default "" (jd_username data)) (jd_publicKey data) (db_user s) = Some t' ∧
    (default (s, []) (on_join sid now data s)).1 =
      State (<[sid := default "" (jd_username data)]> (users s))
            (<[default "" (jd_room data) :=
                 {[default "" (jd_username data)]} ∪
                 roster (default "" (jd_room data)) s]> (rooms_users s))
            t'
            (<[(default "" (jd_room data), default "" (jd_username data)) := now]>
               (db_room_join s))
            (db_message s).
Proof.
  destruct (truthy_str (jd_username data)) eqn:Hu;
    [|left; unfold on_join; by rewrite Hu].
  destruct (truthy_str (jd_room data)) eqn:Hr;
    [|left; unfold on_join; by rewrite Hu, Hr].
  destruct (join_user (default "" (jd_username data)) (jd_publicKey data) (db_user s))
    as [t'|] eqn:Hjoin.
  - right. exists t'. split; [done|].
    by rewrite (on_join_effective sid now data s t').
  - left. unfold on_join. by rewrite Hu, Hr, Hjoin.
Qed.

Lemma step_roster_mono `{PyHost} (ev : event) (s : state) (r : string) :
  is_leave_or_disconnect ev = false →
  roster r s ⊆ roster r (step ev s).1.
Proof.
  intros Hkind. pose proof (step_frame ev s) as Hframe.
  destruct ev as [| |sid now data| | | | | | | | |]; try done;
    try (destruct Hframe as (_ & Hrooms & _); unfold roster; by rewrite Hrooms).
  simpl. destruct (on_join_cases sid now data s) as [-> | (t' & _ & ->)]; [done|].
  unfold roster. simpl. rewrite lookup_insert. case_decide; [|done].
  subst. simpl. set_solver.
Qed.

Lemma step_keeps_blocked `{PyHost} (ev : event) (s : state) (u : string) :
  join_blocked u (db_user s) → join_blocked u (db_user (step ev s).1).
Proof.
  intros Hblocked. pose proof (step_frame ev s) as Hframe.
  destruct ev as [|sid|sid now data|sid data| | | | | | | |];
    try (destruct Hframe as (_ & _ & Hdb); by rewrite Hdb).
  - simpl. unfold on_disconnect. by case_match.
  - simpl. destruct (on_join_cases sid now data s) as [-> | (t' & Hjoin & ->)]; [done|].
    simpl. by eapply join_user_keeps_blocked.
  - simpl. unfold on_leave. by repeat case_match.
Qed.

Lemma step_settled `{PyHost} (ev : event) (s : state) (username room : option string) :
  is_leave_or_disconnect ev = false →
  settled username room s → settled username room (step ev s).1.
Proof.
  intros Hkind [?|[?|[Hin|Hblocked]]].
  - by left.
  - by right; left.
  - right; right; left. by apply (step_roster_mono ev s).
  - right; right; right. by apply step_keeps_blocked.
Qed.

Lemma run_settled `{PyHost} (evs : list event) (s : state) (username room : option string) :
  forallb (λ ev, negb (is_leave_or_disconnect ev)) evs = true →
  settled username room s → settled username room (run evs s).1.
Proof.
  revert s. induction evs as [|ev evs IH]; intros s Hevs Hs; [done|].
  simpl in Hevs. apply andb_true_iff in Hevs as [Hev Hevs].
  rewrite run_cons. apply IH; [done|].
  apply step_settled; [by apply negb_true_iff | done].
Qed.

Lemma join_settles `{PyHost} (sid : string) (now : Z) (data : join_data) (s : state) :
  settled (jd_username data) (jd_room data) (step (Join sid now data) s).1.
Proof.
  destruct (truthy_str (jd_username data)) eqn:Hu; [|by left].
  destruct (truthy_str (jd_room data)) eqn:Hr; [|by right; left].
  destruct (join_user (default "" (jd_username data)) (jd_publicKey data) (db_user s))
    as [t'|] eqn:Hjoin.
  - right; right; left. simpl.
    rewrite (on_join_effective sid now data s t') by done. simpl.
    unfold roster at 1. simpl. rewrite lookup_insert_eq. simpl. set_solver.
  - right; right; right. simpl. unfold on_join. rewrite Hu, Hr, Hjoin. simpl.
    unfold join_user in Hjoin. unfold join_blocked.
    repeat case_match; simplify_eq; done.
Qed.

Lemma settled_join `{PyHost} (sid : string) (now : Z) (data : join_data) (s : state) :
  settled (jd_username data) (jd_room data) s →
  rooms_users (step (Join sid now data) s).1 = rooms_users s ∧
  ∀ msg to, (EvStatus msg, to) ∉ (step (Join sid now data) s).2.
Proof.
  intros Hsettled. simpl.
  destruct (truthy_str (jd_username data)) eqn:Hu;
    [|unfold on_join; rewrite Hu; simpl; split; [done|]; intros ??; apply not_elem_of_nil].
  destruct (truthy_str (jd_room data)) eqn:Hr;
    [|unfold on_join; rewrite Hu, Hr; simpl; split; [done|]; intros ??; apply not_elem_of_nil].
  destruct (join_user (default "" (jd_username data)) (jd_publicKey data) (db_user s))
    as [t'|] eqn:Hjoin;
    [|unfold on_join; rewrite Hu, Hr, Hjoin; simpl; split; [done|];
      intros ??; apply not_elem_of_nil].
  destruct Hsettled as [?|[?|[Hin|Hblocked]]]; [congruence | congruence | |].
  - rewrite (on_join_effective sid now data s t') by done. simpl.
    rewrite bool_decide_eq_true_2 by done. split.
    + unfold roster in *.
      destruct (rooms_users s !! default "" (jd_room data)) as [X|] eqn:HX; simpl in *.
      * apply insert_id. rewrite HX. f_equal. symmetry.
        by apply subseteq_union_1_L, singleton_subseteq_l.
      * by apply not_elem_of_empty in Hin.
    + intros msg to. simpl. rewrite list_elem_of_singleton. congruence.
  - by rewrite join_user_blocked in Hjoin.
Qed.

(** C9. After a join of a username to a room, and any further events none
    of which is a leave or a disconnect, another join with the same
    username and room, from any connection, leaves every roster as it was
    (a roster is a set: no entry is duplicated) and emits no [status]
    event. *)
Theorem rejoin_is_silent `{PyHost} (sid1 sid2 : string) (now1 now2 : Z)
    (username room publicKey1 publicKey2 : option string)
    (evs : list event) (s : state) :
  forallb (λ ev, negb (is_leave_or_disconnect ev)) evs = true →
  let s1 := (step (Join sid1 now1 (JoinData username room publicKey1)) s).1 in
  let s2 := (run evs s1).1 in
  let second := step (Join sid2 now2 (JoinData username room publicKey2)) s2 in
  rooms_users second.1 = rooms_users s2 ∧
  ∀ msg to, (EvStatus msg, to) ∉ second.2.
Proof.
  intros Hevs s1 s2 second. apply settled_join. simpl.
  apply run_settled; [done|].
  apply (join_settles sid1 now1 (JoinData username room publicKey1) s).
Qed.

Lemma step_unbound `{PyHost} (ev : event) (s : state) (sid : string) :
  is_join_of sid ev = false →
  users s !! sid = None →
  users (step ev s).1 !! sid = None.
Proof.
  intros Hkind Hnone. pose proof (step_frame ev s) as Hframe.
  destruct ev as [|sid'|sid' now data|sid' data| | | | | | | |];
    try (destruct Hframe as (Husers & _); by rewrite Husers).
  - simpl. unfold on_disconnect. case_match; simpl;
      by apply lookup_delete_None; right.
  - simpl in *. apply bool_decide_eq_false in Hkind.
    destruct (on_join_cases sid' now data s) as [-> | (t' & _ & ->)]; [done|].
    simpl. by rewrite lookup_insert_ne.
  - simpl. unfold on_leave. repeat case_match; simpl; try done;
      by apply lookup_delete_None; right.
Qed.

Lemma run_unbound `{PyHost} (evs : list event) (s : state) (sid : string) :
  forallb (λ ev, negb (is_join_of sid ev)) evs = true →
  users s !! sid = None →
  users (run evs s).1 !! sid = None.
Proof.
  revert s. induction evs as [|ev evs IH]; intros s Hevs Hnone; [done|].
  simpl in Hevs. apply andb_true_iff in Hevs as [Hev Hevs].
  rewrite run_cons. apply IH; [done|].
  apply step_unbound; [by apply negb_true_iff | done].
Qed.

Lemma on_leave_effect (sid : string) (data : leave_data) (s : state) :
  truthy_str (ld_username data) = true →
  truthy_str (ld_room data) = true →
  users (on_leave sid data s).1 = delete sid (users s) ∧
  (∀ r, roster r (on_leave sid data s).1 =
        if decide (default "" (ld_room data) = r)
        then roster r s ∖ {[default "" (ld_username data)]}
        else roster r s) ∧
  db_message (on_leave sid data s).1 = db_message s.
Proof.
  intros Hu Hr. unfold on_leave. rewrite Hu, Hr. simpl.
  set (username := default "" (ld_username data)).
  set (room := default "" (ld_room data)).
  destruct (rooms_users s !! room) as [X|] eqn:HX; simpl.
  - case_bool_decide as Hin; simpl; (split; [done|]); (split; [|done]); intros r.
    + unfold roster. simpl. rewrite lookup_insert.
      case_decide as Hd; [|done]. subst r. by rewrite HX.
    + unfold roster. simpl. case_decide as Hd; [|done]. subst r. rewrite HX. simpl.
      symmetry. by apply difference_disjoint_L, disjoint_singleton_r.
  - split; [done|]. split; [|done]. intros r. unfold roster. simpl.
    case_decide as Hd; [|done]. subst r. rewrite HX. simpl.
    by rewrite empty_difference_L.
Qed.

(** C10. A leave event that names a username and a room removes the
    binding of the calling connection, whatever room is left and whatever
    username is named, and no other binding; it takes the named username
    off the roster of the room left and changes no other roster, so the
    username stays on the rosters of its other rooms; it changes no
    message.  Until the connection joins again, a message it sends is
    persisted as the one new row, which holds the fields of the event and
    the author "Unknown", and the [message] event broadcast to the room
    carries the same author. *)
Theorem leave_unbinds_connection `{PyHost} (sid : string) (ldata : leave_data)
    (evs : list event) (now : Z) (mdata : message_data) (s : state) :
  truthy_str (ld_username ldata) = true →
  truthy_str (ld_room ldata) = true →
  forallb (λ ev, negb (is_join_of sid ev)) evs = true →
  unsafe_plaintext (md_plaintext mdata) = false →
  let s1 := (step (Leave sid ldata) s).1 in
  let s2 := (run evs s1).1 in
  let sent := step (SendMessage sid now mdata) s2 in
  users s1 = delete sid (users s) ∧
  (∀ r, roster r s1 =
        if decide (default "" (ld_room ldata) = r)
        then roster r s ∖ {[default "" (ld_username ldata)]}
        else roster r s) ∧
  db_message s1 = db_message s ∧
  db_message s2 !! fresh_id (db_message s2) = None ∧
  db_message sent.1 =
    <[fresh_id (db_message s2) :=
        Message.mk (md_room mdata) "Unknown" (md_encrypted_map mdata)
          (md_fileUrl mdata) (md_fileName mdata) None
          (normalize_expiry now (md_expires_at mdata)) true false []
          (md_delete_on_read mdata) (md_require_all_read mdata)]> (db_message s2) ∧
  users sent.1 = users s2 ∧
  rooms_users sent.1 = rooms_users s2 ∧
  sent.2 =
    [(EvMessage
        (MessagePayload (fresh_id (db_message s2)) "Unknown" (md_plaintext mdata)
           (md_encrypted_map mdata) (md_fileUrl mdata) (md_fileName mdata)
           (normalize_expiry now (md_expires_at mdata)) true false
           (md_delete_on_read mdata) (md_require_all_read mdata)),
      ToRoom (md_room mdata))].
Proof.
  intros Hu Hr Hevs Hsafe s1 s2 sent.
  destruct (on_leave_effect sid ldata s Hu Hr) as (Husers & Hrooms & Hdb).
  split; [exact Husers|]. split; [exact Hrooms|]. split; [exact Hdb|].
  assert (users s1 !! sid = None) as Hnone.
  { subst s1. simpl. rewrite Husers. apply lookup_delete_eq. }
  pose proof (run_unbound evs s1 sid Hevs Hnone) as Hnone2. fold s2 in Hnone2.
  split; [apply fresh_id_unused|].
  subst sent. simpl. unfold handle_message. rewrite Hsafe, Hnone2. done.
Qed.

(** ** The statements on the example runs *)

(** C1, counterexample. In the lobby alice acknowledges her own message 1,
    which is to be deleted on read without waiting for all: the message
    stays, and its [read] flag goes from false to true. *)
Lemma author_acknowledgement_sets_read :
  Message.delete_on_read <$> db_message Scenario.lobby !! 1 = Some true ∧
  Message.require_all_read <$> db_message Scenario.lobby !! 1 = Some false ∧
  Message.username <$> db_message Scenario.lobby !! 1 =
    Some (acting_username "sid-alice" Scenario.lobby) ∧
  Message.read <$> db_message Scenario.lobby !! 1 = Some false ∧
  Message.read <$> db_message (message_seen "sid-alice" 1 Scenario.lobby).1 !! 1 =
    Some true.
Proof. repeat split; by_compute. Qed.

(** Witness of C1: in the lobby bob acknowledges alice's message 1. *)
Lemma message_seen_delete_on_read_witness :
  db_message (message_seen "sid-bob" 1 Scenario.lobby).1 !! 1 = None ∧
  (message_seen "sid-bob" 1 Scenario.lobby).2 = [(EvDeleteMessage 1, ToRoom "lobby")].
Proof.
  apply (proj2 (message_seen_delete_on_read "sid-bob" 1 Scenario.lobby
                  (Scenario.row "alice" "lobby" None false [] true false)
                  ltac:(by_compute) ltac:(by_compute) ltac:(by_compute)));
    by_compute.
Defined.

(** C2, counterexample. In the deserted lobby the roster is empty, so it is
    a subset of every set; message 1 is to be deleted once all have read
    it; an acknowledgement leaves it persisted. *)
Lemma empty_roster_keeps_message :
  Message.delete_on_read <$> db_message Scenario.deserted_lobby !! 1 = Some true ∧
  Message.require_all_read <$> db_message Scenario.deserted_lobby !! 1 = Some true ∧
  roster "lobby" Scenario.deserted_lobby = ∅ ∧
  Message.readers <$>
    db_message (message_seen "sid-carol" 1 Scenario.deserted_lobby).1 !! 1 =
    Some ["Unknown"].
Proof. repeat split; by_compute. Qed.

(** Witness of C2: alice, bob and carol are online, bob has read message 1
    and carol acknowledges it. *)
Lemma message_seen_require_all_read_witness :
  db_message (message_seen "sid-carol" 1 Scenario.lobby_of_three).1 !! 1 = None.
Proof.
  apply (message_seen_require_all_read "sid-carol" 1 Scenario.lobby_of_three
           (Scenario.row "alice" "lobby" None true ["bob"] true true)).
  - by_compute.
  - by_compute.
  - by_compute.
  - split; decide_by_compute.
Defined.

(** C3, at the failing input. Message 1 expires one minute after
    [Scenario.t0]; a sweep five minutes after [Scenario.t0] deletes it and
    emits no event at all, so no [delete_message] reaches its room. *)
Theorem sweep_deletes_without_event :
  Message.expires_at <$> db_message Scenario.lobby_with_expiring !! 1 =
    Some (Some (Scenario.t0 + 60 * one_second)) ∧
  Message.room <$> db_message Scenario.lobby_with_expiring !! 1 = Some "lobby" ∧
  db_message
    (delete_expired_messages (Scenario.t0 + 300 * one_second)
       Scenario.lobby_with_expiring).1 !! 1 = None ∧
  (delete_expired_messages (Scenario.t0 + 300 * one_second)
     Scenario.lobby_with_expiring).2 = [].
Proof. repeat split; by_compute. Qed.

(** Witness of C4: the first message sent to the empty server. *)
Lemma handle_message_timestamp_null_witness :
  ∃ msg,
    db_message initial_state !! fresh_id (db_message initial_state) = None ∧
    db_message
      (handle_message (H := SampleHost.host) "sid-alice" Scenario.t0
         (MessageData "lobby" [] PNone false false None None (Some "hello"))
         initial_state).1 !! fresh_id (db_message initial_state) = Some msg ∧
    Message.timestamp msg = None.
Proof.
  apply (handle_message_timestamp_null (H := SampleHost.host)). by_compute.
Defined.

(** C5, counterexample. The mark-read request on message 1 of the lobby,
    which nobody has acknowledged, sets [read] and leaves [readers]
    empty. *)
Lemma mark_read_without_reader :
  Message.read <$> db_message Scenario.lobby !! 1 = Some false ∧
  Message.readers <$> db_message Scenario.lobby !! 1 = Some [] ∧
  Message.read <$> db_message (mark_read 1 Scenario.lobby).1.1 !! 1 = Some true ∧
  Message.readers <$> db_message (mark_read 1 Scenario.lobby).1.1 !! 1 = Some [].
Proof. repeat split; by_compute. Qed.

(** Witness of C5: bob acknowledges message 1 of the lobby, which sets
    [read] with bob in [readers]. *)
Lemma read_flag_origin_witness :
  (∃ msg, db_message Scenario.plain_lobby !! 1 = Some msg ∧
          Message.read msg = true) ∨
  (∃ sid, MessageSeen "sid-bob" 1 = MessageSeen sid 1 ∧
          acting_username sid Scenario.plain_lobby ∈
            Message.readers (Scenario.row "alice" "lobby" None true ["bob"] false false)) ∨
  (MessageSeen "sid-bob" 1 = MarkRead 1 ∧
   ∃ msg, db_message Scenario.plain_lobby !! 1 = Some msg ∧
          Message.readers (Scenario.row "alice" "lobby" None true ["bob"] false false) =
            Message.readers msg).
Proof.
  apply (read_flag_origin (H := SampleHost.host)); by_compute.
Defined.

(** C6, counterexample. A message sent at [Scenario.t0] with
    [expires_at] 0, the epoch, which is before [Scenario.t0]: the row is
    persisted with no expiry, not with [Scenario.t0] plus one second. *)
Lemma epoch_expiry_is_dropped :
  utc_fromtimestamp_ms (PyHost := SampleHost.host) 0 = Some 0 ∧
  0 ≤ Scenario.t0 ∧
  Message.expires_at <$>
    db_message
      (handle_message (H := SampleHost.host) "sid-alice" Scenario.t0
         (MessageData "lobby" [] (PInt 0) false false None None None)
         initial_state).1 !! 1 = Some None ∧
  None ≠ Some (Scenario.t0 + one_second).
Proof. repeat split; by_compute. Qed.

(** Witness of C6: a message sent at [Scenario.t0] (November 2023) that
    asks to expire in September 2020. *)
Lemma handle_message_expiry_witness :
  ∃ msg,
    db_message
      (handle_message (H := SampleHost.host) "sid-alice" Scenario.t0
         (MessageData "lobby" [] (PInt 1600000000000) false false None None None)
         initial_state).1 !! fresh_id (db_message initial_state) = Some msg ∧
    Message.expires_at msg = Some (Scenario.t0 + one_second).
Proof.
  destruct (handle_message_expiry (H := SampleHost.host) "sid-alice" Scenario.t0
              (MessageData "lobby" [] (PInt 1600000000000) false false None None None)
              initial_state ltac:(by_compute)) as (msg & Hmsg & _ & Hclamp).
  exists msg. split; [exact Hmsg|].
  apply (Hclamp 1600000000000 1600000000000000); by_compute.
Defined.

(** C7, counterexample. In the lobby alice, the author of message 1,
    acknowledges it: [readers] becomes the list holding alice. *)
Lemma author_acknowledgement_is_recorded :
  Message.username <$> db_message Scenario.lobby !! 1 = Some "alice" ∧
  acting_username "sid-alice" Scenario.lobby = "alice" ∧
  Message.readers <$> db_message Scenario.lobby !! 1 = Some [] ∧
  Message.readers <$> db_message (message_seen "sid-alice" 1 Scenario.lobby).1 !! 1 =
    Some ["alice"].
Proof. repeat split; by_compute. Qed.

(** Witness of C7: bob, alice (the author) and bob again acknowledge
    message 1 of the lobby. *)
Lemma readers_after_acknowledgements_witness :
  Message.username (Scenario.row "alice" "lobby" None true ["bob"; "alice"] false false) =
    Message.username (Scenario.row "alice" "lobby" None false [] false false) ∧
  ∀ u, u ∈ Message.readers
             (Scenario.row "alice" "lobby" None true ["bob"; "alice"] false false) ↔
       u ∈ Message.readers (Scenario.row "alice" "lobby" None false [] false false) ∨
       ∃ sid, sid ∈ ["sid-bob"; "sid-alice"; "sid-bob"] ∧
              acting_username sid Scenario.plain_lobby = u.
Proof.
  apply (readers_after_acknowledgements (H := SampleHost.host)
           ["sid-bob"; "sid-alice"; "sid-bob"] 1); by_compute.
Defined.

(** Witness of C8: a preview with the keyword in capitals. *)
Lemma handle_message_rejects_unsafe_witness :
  handle_message (H := SampleHost.host) "sid-alice" (Scenario.t0 + 3)
    (MessageData "lobby" [("bob", "Y2lwaGVydGV4dA==")] PNone false false None None
                 (Some "Beware: PHISHING link"))
    Scenario.plain_lobby =
  (Scenario.plain_lobby,
   [(EvMessageRejected "Message contains unsafe content", ToSender "sid-alice")]).
Proof.
  apply (handle_message_rejects_unsafe (H := SampleHost.host) _ _ _ _
           "Beware: PHISHING link" "phishing").
  - reflexivity.
  - decide_by_compute.
  - exists "beware: ", " link". reflexivity.
Defined.

(** Witness of C9: alice joins the lobby, bob joins, a message is sent
    and read, and alice joins the lobby again from a second connection. *)
Lemma rejoin_is_silent_witness :
  rooms_users
    (step (H := SampleHost.host) (Scenario.join "sid-alice2" "alice" "lobby" (Scenario.t0 + 9))
       (run (H := SampleHost.host)
          [Scenario.join "sid-bob" "bob" "lobby" (Scenario.t0 + 1);
           Scenario.send "sid-alice" "lobby" (Scenario.t0 + 2) PNone false false None;
           MessageSeen "sid-bob" 1]
          (step (H := SampleHost.host)
             (Scenario.join "sid-alice" "alice" "lobby" Scenario.t0) initial_state).1).1).1 =
  rooms_users
    (run (H := SampleHost.host)
       [Scenario.join "sid-bob" "bob" "lobby" (Scenario.t0 + 1);
        Scenario.send "sid-alice" "lobby" (Scenario.t0 + 2) PNone false false None;
        MessageSeen "sid-bob" 1]
       (step (H := SampleHost.host)
          (Scenario.join "sid-alice" "alice" "lobby" Scenario.t0) initial_state).1).1 ∧
  ∀ msg to,
    (EvStatus msg, to) ∉
    (step (H := SampleHost.host) (Scenario.join "sid-alice2" "alice" "lobby" (Scenario.t0 + 9))
       (run (H := SampleHost.host)
          [Scenario.join "sid-bob" "bob" "lobby" (Scenario.t0 + 1);
           Scenario.send "sid-alice" "lobby" (Scenario.t0 + 2) PNone false false None;
           MessageSeen "sid-bob" 1]
          (step (H := SampleHost.host)
             (Scenario.join "sid-alice" "alice" "lobby" Scenario.t0) initial_state).1).1).2.
Proof.
  apply (rejoin_is_silent (H := SampleHost.host) "sid-alice" "sid-alice2"
           Scenario.t0 (Scenario.t0 + 9) (Some "alice") (Some "lobby") None None).
  reflexivity.
Defined.

(** Witness of C10: alice, in the lobby and the kitchen on one connection,
    leaves the lobby and writes to the kitchen, where she is still on the
    roster. *)
Lemma leave_unbinds_connection_witness :
  users (on_leave "sid-alice" (LeaveData (Some "alice") (Some "lobby"))
           Scenario.two_rooms).1 = delete "sid-alice" (users Scenario.two_rooms) ∧
  roster "lobby"
    (on_leave "sid-alice" (LeaveData (Some "alice") (Some "lobby"))
       Scenario.two_rooms).1 = ∅ ∧
  "alice" ∈ roster "kitchen"
              (on_leave "sid-alice" (LeaveData (Some "alice") (Some "lobby"))
                 Scenario.two_rooms).1 ∧
  db_message
    (handle_message (H := SampleHost.host) "sid-alice" (Scenario.t0 + 5)
       (MessageData "kitchen" [] PNone false false None None None)
       (on_leave "sid-alice" (LeaveData (Some "alice") (Some "lobby"))
          Scenario.two_rooms).1).1 =
    {[1 := Message.mk "kitchen" "Unknown" [] None None None None true false []
             false false]}.
Proof.
  destruct (leave_unbinds_connection (H := SampleHost.host) "sid-alice"
              (LeaveData (Some "alice") (Some "lobby")) [] (Scenario.t0 + 5)
              (MessageData "kitchen" [] PNone false false None None None)
              Scenario.two_rooms eq_refl eq_refl eq_refl eq_refl)
    as (Husers & Hrosters & _ & _ & Hrow & _).
  split; [exact Husers|].
  split; [exact (eq_trans (Hrosters "lobby") ltac:(by_compute))|].
  split; [decide_by_compute|].
  exact (eq_trans Hrow ltac:(by_compute)).
Defined.

(** * Further properties of the handlers *)

(** ** Disconnect *)

Lemma set_users_same (s : state) : set_users (users s) s = s.
Proof. by destruct s. Qed.

Lemma on_disconnect_unknown (sid : string) (s : state) :
  users s !! sid = None → on_disconnect sid s = (s, []).
Proof.
  intros Hnone. unfold on_disconnect. rewrite Hnone. simpl.
  by rewrite delete_id, set_users_same.
Qed.

Lemma on_disconnect_users (sid : string) (s : state) :
  users (on_disconnect sid s).1 = delete sid (users s).
Proof. unfold on_disconnect. by case_match. Qed.

(** X1. Disconnecting is idempotent: a second disconnect of the same
    connection changes nothing and emits nothing. *)
Theorem on_disconnect_twice (sid : string) (s : state) :
  on_disconnect sid (on_disconnect sid s).1 = ((on_disconnect sid s).1, []).
Proof.
  apply on_disconnect_unknown. rewrite on_disconnect_users. apply lookup_delete_eq.
Qed.

Lemma truthy_str_Some (u : string) : u ≠ "" → truthy_str (Some u) = true.
Proof. intros Hu. simpl. apply negb_true_iff. by apply String.eqb_neq. Qed.

Lemma truthy_str_default (o : option string) :
  truthy_str o = true → o = Some (default "" o) ∧ default "" o ≠ "".
Proof.
  destruct o as [u|]; [|done]. simpl. intros Hu%negb_true_iff%String.eqb_neq. done.
Qed.

(** X2. When a connection bound to a (non-empty) username disconnects, the
    binding is removed and nothing else in [users] changes, the username
    leaves the roster of every room, whether or not other connections are
    still bound to it, no message changes, and the events emitted are one
    [online_users] with the new roster for each room that held the
    username: each such event once, and nothing else.  The order of these
    events is left open. *)
Theorem on_disconnect_clears_rosters (sid u : string) (s : state) :
  users s !! sid = Some u →
  u ≠ "" →
  users (on_disconnect sid s).1 = delete sid (users s) ∧
  (∀ r, roster r (on_disconnect sid s).1 = roster r s ∖ {[u]}) ∧
  db_message (on_disconnect sid s).1 = db_message s ∧
  NoDup (on_disconnect sid s).2 ∧
  (∀ e, e ∈ (on_disconnect sid s).2 ↔
        ∃ r, u ∈ roster r s ∧ e = (EvOnlineUsers (roster r s ∖ {[u]}), ToRoom r)).
Proof.
  intros Hbound Hu. split; [apply on_disconnect_users|].
  split; [|split; [apply on_disconnect_db_message|]];
    unfold on_disconnect; rewrite Hbound, (truthy_str_Some u Hu); simpl.
  all: assert (∀ r, default ∅ (((λ X : gset string, X ∖ {[u]}) <$> rooms_users s) !! r)
                    = roster r s ∖ {[u]}) as Hroster
         by (intros r; unfold roster; rewrite lookup_fmap;
             destruct (rooms_users s !! r); simpl; [done|];
             by rewrite empty_difference_L).
  - exact Hroster.
  - split.
    + apply NoDup_fmap_2_strong; [|apply NoDup_fst_map_to_list].
      intros r1 r2 _ _ Heq. by injection Heq.
    + intros e. rewrite list_elem_of_fmap. split.
      * intros (r & -> & Hr). apply list_elem_of_fmap in Hr as ([r' X] & -> & Hin).
        apply elem_of_map_to_list, map_lookup_filter_Some in Hin as [HX Hmem].
        simpl in *. exists r'. rewrite Hroster. split; [|done].
        unfold roster. by rewrite HX.
      * intros (r & Hmem & ->). exists r. rewrite Hroster. split; [done|].
        unfold roster in Hmem.
        destruct (rooms_users s !! r) as [X|] eqn:HX; simpl in Hmem;
          [|by apply not_elem_of_empty in Hmem].
        apply list_elem_of_fmap. exists (r, X). split; [done|].
        by apply elem_of_map_to_list, map_lookup_filter_Some.
Qed.

(** ** Join and leave *)

(** X3. A join that is neither ignored nor raises binds the connection,
    puts the username on the roster of the room and on no other, records
    the time as the join time of (room, username), leaves the messages
    alone, and, when the username was not on the roster, emits one [status]
    to the room without the caller, followed by [online_users] with the new
    roster. *)
Theorem on_join_enters (sid : string) (now : Z) (data : join_data)
    (s s' : state) (out : list emitted) :
  truthy_str (jd_username data) = true →
  truthy_str (jd_room data) = true →
  on_join sid now data s = Some (s', out) →
  let username := default "" (jd_username data) in
  let room := default "" (jd_room data) in
  users s' = <[sid := username]> (users s) ∧
  (∀ r, roster r s' = if decide (room = r) then {[username]} ∪ roster r s
                      else roster r s) ∧
  db_room_join s' = <[(room, username) := now]> (db_room_join s) ∧
  db_message s' = db_message s ∧
  (username ∉ roster room s →
   out = [(EvStatus (username +:+ " has entered the room."), ToRoomSkip room sid);
          (EvOnlineUsers ({[username]} ∪ roster room s), ToRoom room)]).
Proof.
  intros Hu Hr Hjoin username room.
  destruct (join_user username (jd_publicKey data) (db_user s)) as [t'|] eqn:Ht.
  2:{ unfold on_join in Hjoin. rewrite Hu, Hr in Hjoin. simpl in Hjoin.
      fold username in Hjoin. by rewrite Ht in Hjoin. }
  rewrite (on_join_effective sid now data s t' Hu Hr Ht) in Hjoin.
  injection Hjoin as <- <-. simpl. repeat split; try done.
  - intros r. unfold roster at 1. simpl. rewrite lookup_insert.
    fold room username. case_decide as Hd; [by rewrite <- Hd | done].
  - intros Hnew. fold username room. by rewrite bool_decide_eq_false_2.
Qed.

(** X4. A leave for a room whose roster does not hold the username (or for
    a room nobody ever joined) emits nothing and changes no roster, but
    still removes the binding of the calling connection. *)
Theorem on_leave_absent (sid : string) (data : leave_data) (s : state) :
  truthy_str (ld_username data) = true →
  truthy_str (ld_room data) = true →
  default "" (ld_username data) ∉ roster (default "" (ld_room data)) s →
  on_leave sid data s = (set_users (delete sid (users s)) s, []).
Proof.
  intros Hu Hr Hout. unfold on_leave. rewrite Hu, Hr. simpl.
  unfold roster in Hout.
  destruct (rooms_users s !! default "" (ld_room data)) as [X|]; [|done].
  simpl in Hout. by rewrite bool_decide_eq_false_2.
Qed.

(** X5. A leave names the username to remove and is not checked against
    the binding of the caller: after a join from one connection, a leave
    for the same username and room from any other connection takes the
    username off the roster of that room, leaves the other rosters alone,
    keeps the joining connection bound, and emits [online_users] with the
    new roster and then a [status] to the room without the caller. *)
Theorem leave_after_join (sid1 sid2 : string) (now : Z) (jdata : join_data)
    (s s1 : state) (out1 : list emitted) :
  truthy_str (jd_username jdata) = true →
  truthy_str (jd_room jdata) = true →
  on_join sid1 now jdata s = Some (s1, out1) →
  sid1 ≠ sid2 →
  let username := default "" (jd_username jdata) in
  let room := default "" (jd_room jdata) in
  let after := on_leave sid2 (LeaveData (jd_username jdata) (jd_room jdata)) s1 in
  users after.1 !! sid1 = Some username ∧
  (∀ r, roster r after.1 = if decide (room = r) then roster r s ∖ {[username]}
                           else roster r s) ∧
  after.2 = [(EvOnlineUsers (roster room s ∖ {[username]}), ToRoom room);
             (EvStatus (username +:+ " has left the room."), ToRoomSkip room sid2)].
Proof.
  intros Hu Hr Hjoin Hsid username room after.
  destruct (join_user username (jd_publicKey jdata) (db_user s)) as [t1|] eqn:Ht.
  2:{ unfold on_join in Hjoin. rewrite Hu, Hr in Hjoin. simpl in Hjoin.
      fold username in Hjoin. by rewrite Ht in Hjoin. }
  rewrite (on_join_effective sid1 now jdata s t1 Hu Hr Ht) in Hjoin.
  injection Hjoin as <- <-. fold username room in after.
  assert (({[username]} ∪ roster room s) ∖ {[username]} = roster room s ∖ {[username]})
    as Hset.
  { by rewrite difference_union_distr_l_L, difference_diag_L, union_empty_l_L. }
  subst after. unfold on_leave. simpl. rewrite Hu, Hr. simpl.
  fold username room. rewrite lookup_insert_eq.
  rewrite bool_decide_eq_true_2 by (by apply elem_of_union_l, elem_of_singleton_2).
  simpl. rewrite Hset.
  split; [by rewrite lookup_delete_ne, lookup_insert_eq by congruence|].
  split; [|done].
  intros r. unfold roster at 1. simpl. rewrite insert_insert_eq, lookup_insert.
  case_decide as Hroom; simpl; [by rewrite <- Hroom | done].
Qed.

(** ** Acknowledging twice *)

Lemma add_reader_again (u : string) (readers : list string) :
  add_reader u (add_reader u readers) = add_reader u readers.
Proof.
  unfold add_reader at 1. rewrite bool_decide_eq_true_2; [done|].
  apply elem_of_add_reader. by right.
Qed.

Lemma NoDup_add_reader (u : string) (readers : list string) :
  NoDup readers → NoDup (add_reader u readers).
Proof.
  intros Hnd. unfold add_reader. case_bool_decide as Hin; [done|].
  apply NoDup_app. split; [done|]. split; [|apply NoDup_singleton].
  intros x Hx ->%list_elem_of_singleton. done.
Qed.

(** X6. Acknowledging is idempotent: a second [message_seen] for the same
    message from the same connection changes nothing and emits nothing,
    whether the first one deleted the message, marked it read, or found no
    message at all. *)
Theorem message_seen_twice (sid : string) (msg_id : Z) (s : state) :
  message_seen sid msg_id (message_seen sid msg_id s).1 =
    ((message_seen sid msg_id s).1, []).
Proof.
  destruct (db_message s !! msg_id) as [msg|] eqn:Hmsg.
  2:{ rewrite (message_seen_missing sid msg_id s Hmsg). simpl.
      by apply message_seen_missing. }
  rewrite (message_seen_found sid msg_id s msg Hmsg). cbn zeta.
  set (u := acting_username sid s).
  destruct (deletion_due u (add_reader u (Message.readers msg)) msg s) eqn:Hdue.
  { simpl. apply message_seen_missing. simpl. apply lookup_delete_eq. }
  assert (∀ m1 : Message.t,
            Message.readers m1 = add_reader u (Message.readers msg) →
            Message.read m1 = true →
            Message.room m1 = Message.room msg →
            Message.username m1 = Message.username msg →
            Message.delete_on_read m1 = Message.delete_on_read msg →
            Message.require_all_read m1 = Message.require_all_read msg →
            let s1 := set_db_message (<[msg_id := m1]> (db_message s)) s in
            message_seen sid msg_id s1 = (s1, [])) as Hagain.
  { intros m1 Hreaders Hread Hroom Hauthor Hdel Hall s1.
    rewrite (message_seen_found sid msg_id s1 m1) by apply lookup_insert_eq.
    cbn zeta. change (acting_username sid s1) with u.
    rewrite Hreaders, add_reader_again.
    replace (deletion_due u (add_reader u (Message.readers msg)) m1 s1) with false.
    2:{ rewrite <- Hdue. unfold deletion_due. by rewrite Hroom, Hauthor, Hdel, Hall. }
    rewrite Hread. simpl. f_equal. subst s1. unfold set_db_message. simpl.
    f_equal. rewrite insert_insert_eq. f_equal.
    destruct m1. simpl in *. by subst. }
  destruct (Message.read msg) eqn:Hread; simpl; by apply Hagain.
Qed.

(** ** What an operation can do to a message *)

Lemma evolves_refl (m : Message.t) : evolves m m.
Proof. unfold evolves. repeat split; auto. Qed.

Ltac solve_evolves :=
  unfold evolves; simpl; repeat (split; [done|]); auto.

Lemma step_evolves `{PyHost} (ev : event) (s : state) (i : Z)
    (m m' : Message.t) :
  db_message s !! i = Some m →
  db_message (step ev s).1 !! i = Some m' →
  evolves m m'.
Proof.
  intros Hbefore Hafter.
  assert (db_message s !! i = Some m' → evolves m m') as Hsame.
  { intros Hm'. rewrite Hbefore in Hm'. injection Hm' as <-. apply evolves_refl. }
  destruct ev as [sid|sid|sid now data|sid data|sid now data|sid msg_id
                  |sid room|sid room|msg_id|msg_id data|msg_id|now];
    simpl in Hafter.
  - by apply Hsame.
  - apply Hsame. by rewrite on_disconnect_db_message in Hafter.
  - apply Hsame. by rewrite on_join_db_message in Hafter.
  - apply Hsame. by rewrite on_leave_db_message in Hafter.
  - apply Hsame. unfold handle_message in Hafter.
    destruct (unsafe_plaintext (md_plaintext data)); [done|]. simpl in Hafter.
    destruct (decide (fresh_id (db_message s) = i)) as [<-|Hne].
    + by rewrite fresh_id_unused in Hbefore.
    + by rewrite lookup_insert_ne in Hafter.
  - destruct (decide (i = msg_id)) as [->|Hne].
    2:{ apply Hsame. by rewrite message_seen_other in Hafter. }
    rewrite (message_seen_found sid msg_id s m Hbefore) in Hafter. cbn zeta in Hafter.
    destruct (deletion_due _ _ m s); simpl in Hafter.
    { by rewrite lookup_delete_eq in Hafter. }
    destruct (Message.read m) eqn:Hwas; simpl in Hafter;
      rewrite lookup_insert_eq in Hafter; injection Hafter as <-;
      solve_evolves; repeat split; eauto.
  - unfold handle_typing in Hafter. apply Hsame. by case_match.
  - unfold handle_stop_typing in Hafter. apply Hsame. by case_match.
  - apply Hsame. unfold delete_message in Hafter.
    destruct (db_message s !! msg_id) eqn:Hmsg; simpl in Hafter; [|done].
    by apply lookup_delete_Some in Hafter as [_ ?].
  - unfold edit_message in Hafter.
    destruct (negb _); simpl in Hafter; [by apply Hsame|].
    destruct (db_message s !! msg_id) as [msg|] eqn:Hmsg; simpl in Hafter;
      [|by apply Hsame].
    destruct (decide (msg_id = i)) as [->|Hne].
    + rewrite lookup_insert_eq in Hafter. injection Hafter as <-.
      rewrite Hbefore in Hmsg. injection Hmsg as <-. solve_evolves.
    + rewrite lookup_insert_ne in Hafter by done. by apply Hsame.
  - unfold mark_read in Hafter.
    destruct (db_message s !! msg_id) as [msg|] eqn:Hmsg; simpl in Hafter;
      [|by apply Hsame].
    destruct (decide (msg_id = i)) as [->|Hne].
    + rewrite lookup_insert_eq in Hafter. injection Hafter as <-.
      rewrite Hbefore in Hmsg. injection Hmsg as <-. solve_evolves.
    + rewrite lookup_insert_ne in Hafter by done. by apply Hsame.
  - apply Hsame.
    destruct (delete_expired_messages_spec now s) as (_ & _ & _ & _ & Hdb).
    rewrite Hdb, Hbefore in Hafter. rewrite Hbefore.
    by destruct (expired now m).
Qed.

(** X7. No operation changes the room, the author, the attachment, the
    timestamp, the expiry, the [delivered] flag or the two deletion flags
    of a persisted message; none clears [read]; and [readers] either stays
    as it is or gains the one acknowledging username, with [read] set. *)
Theorem step_message_evolves `{PyHost} (ev : event) (s : state) (i : Z)
    (m m' : Message.t) :
  db_message s !! i = Some m →
  db_message (step ev s).1 !! i = Some m' →
  evolves m m'.
Proof. apply step_evolves. Qed.

Lemma step_created `{PyHost} (ev : event) (s : state) (i : Z)
    (m' : Message.t) :
  db_message s !! i = None →
  db_message (step ev s).1 !! i = Some m' →
  ∃ sid now data,
    ev = SendMessage sid now data ∧
    i = fresh_id (db_message s) ∧
    m' = Message.mk (md_room data) (acting_username sid s) (md_encrypted_map data)
           (md_fileUrl data) (md_fileName data) None
           (normalize_expiry now (md_expires_at data)) true false []
           (md_delete_on_read data) (md_require_all_read data).
Proof.
  intros Hbefore Hafter.
  assert (db_message s !! i = Some m' → False) as Hsame by congruence.
  destruct ev as [sid|sid|sid now data|sid data|sid now data|sid msg_id
                  |sid room|sid room|msg_id|msg_id data|msg_id|now];
    simpl in Hafter.
  - by destruct Hsame.
  - destruct Hsame. by rewrite on_disconnect_db_message in Hafter.
  - destruct Hsame. by rewrite on_join_db_message in Hafter.
  - destruct Hsame. by rewrite on_leave_db_message in Hafter.
  - unfold handle_message in Hafter.
    destruct (unsafe_plaintext (md_plaintext data)); [by destruct Hsame|].
    simpl in Hafter.
    destruct (decide (fresh_id (db_message s) = i)) as [<-|Hne].
    + rewrite lookup_insert_eq in Hafter. injection Hafter as <-.
      by exists sid, now, data.
    + destruct Hsame. by rewrite lookup_insert_ne in Hafter.
  - destruct Hsame. destruct (decide (i = msg_id)) as [->|Hne].
    + by rewrite message_seen_missing in Hafter.
    + by rewrite message_seen_other in Hafter.
  - destruct Hsame. unfold handle_typing in Hafter. by case_match.
  - destruct Hsame. unfold handle_stop_typing in Hafter. by case_match.
  - destruct Hsame. unfold delete_message in Hafter.
    destruct (db_message s !! msg_id) eqn:Hmsg; simpl in Hafter; [|done].
    by apply lookup_delete_Some in Hafter as [_ ?].
  - destruct Hsame. unfold edit_message in Hafter.
    destruct (negb _); simpl in Hafter; [done|].
    destruct (db_message s !! msg_id) as [msg|] eqn:Hmsg; simpl in Hafter; [|done].
    destruct (decide (msg_id = i)) as [->|Hne]; [congruence|].
    by rewrite lookup_insert_ne in Hafter.
  - destruct Hsame. unfold mark_read in Hafter.
    destruct (db_message s !! msg_id) as [msg|] eqn:Hmsg; simpl in Hafter; [|done].
    destruct (decide (msg_id = i)) as [->|Hne]; [congruence|].
    by rewrite lookup_insert_ne in Hafter.
  - destruct Hsame.
    destruct (delete_expired_messages_spec now s) as (_ & _ & _ & _ & Hdb).
    rewrite Hdb, Hbefore in Hafter. done.
Qed.

(** X8. Only [handle_message] creates a message: a row that is there after
    an operation and was not there before was written by a [message] event,
    under the fresh id, with the acting username of the connection as
    author, a null timestamp, [delivered] set, [read] clear and no
    readers. *)
Theorem step_message_created `{PyHost} (ev : event) (s : state) (i : Z)
    (m' : Message.t) :
  db_message s !! i = None →
  db_message (step ev s).1 !! i = Some m' →
  ∃ sid now data,
    ev = SendMessage sid now data ∧
    i = fresh_id (db_message s) ∧
    m' = Message.mk (md_room data) (acting_username sid s) (md_encrypted_map data)
           (md_fileUrl data) (md_fileName data) None
           (normalize_expiry now (md_expires_at data)) true false []
           (md_delete_on_read data) (md_require_all_read data).
Proof. apply step_created. Qed.

(** ** Invariants of the reachable states *)

Lemma step_well_formed_messages `{PyHost} (ev : event) (s : state) :
  (∀ i m, db_message s !! i = Some m → well_formed_message m) →
  ∀ i m, db_message (step ev s).1 !! i = Some m → well_formed_message m.
Proof.
  intros Hinv i m' Hafter.
  destruct (db_message s !! i) as [m|] eqn:Hbefore.
  - destruct (Hinv i m Hbefore) as (Hts & Hdel & Hnd & Hread).
    destruct (step_evolves ev s i m m' Hbefore Hafter)
      as (_ & _ & _ & _ & Hts' & _ & Hdel' & _ & _ & Hkeep & Hreaders).
    unfold well_formed_message. rewrite Hts', Hdel'.
    split; [done|]. split; [done|].
    destruct Hreaders as [Heq|(u & Heq & Hset)]; rewrite Heq.
    + split; [done|]. auto.
    + split; [by apply NoDup_add_reader | done].
  - destruct (step_created ev s i m' Hbefore Hafter)
      as (sid & now & data & _ & _ & ->).
    unfold well_formed_message. simpl. repeat split; [apply NoDup_nil_2 | done].
Qed.

Lemma run_well_formed_messages `{PyHost} (evs : list event) (s : state) :
  (∀ i m, db_message s !! i = Some m → well_formed_message m) →
  ∀ i m, db_message (run evs s).1 !! i = Some m → well_formed_message m.
Proof.
  revert s. induction evs as [|ev evs IH]; intros s Hinv; [done|].
  rewrite run_cons. apply IH. by apply step_well_formed_messages.
Qed.

Lemma reachable_well_formed `{PyHost} (evs : list event) (i : Z) (m : Message.t) :
  db_message (run evs initial_state).1 !! i = Some m →
  well_formed_message m.
Proof. apply run_well_formed_messages. intros j m' Hm'. done. Qed.

(** X9. In every state reached from the empty server, every persisted
    message has a null timestamp and [delivered] set, its [readers] hold no
    username twice, and [read] is set whenever [readers] is not empty. *)
Theorem reachable_messages_well_formed `{PyHost} (evs : list event) (i : Z)
    (m : Message.t) :
  db_message (run evs initial_state).1 !! i = Some m →
  well_formed_message m.
Proof.
  intros Hm. apply (run_well_formed_messages evs initial_state) with i; [|done].
  intros j m' Hm'. simpl in Hm'. by rewrite lookup_empty in Hm'.
Qed.

Lemma step_well_formed_presence `{PyHost} (ev : event) (s : state) :
  well_formed_presence s → well_formed_presence (step ev s).1.
Proof.
  intros [Husers Hrooms]. pose proof (step_frame ev s) as Hframe.
  destruct ev as [|sid|sid now data|sid data| | | | | | | |];
    try (destruct Hframe as (Hu & Hr & _); unfold well_formed_presence;
         by rewrite Hu, Hr).
  - (* disconnect *)
    unfold well_formed_presence. simpl. rewrite on_disconnect_users. split.
    + intros sid' u Hu. apply lookup_delete_Some in Hu as [_ Hu]. eauto.
    + intros r X. unfold on_disconnect. case_match; simpl; [|by apply Hrooms].
      rewrite lookup_fmap. destruct (rooms_users s !! r) as [Y|] eqn:HY; [|done].
      simpl. intros [= <-]. destruct (Hrooms r Y HY) as [Hr HY'].
      split; [done|]. rewrite elem_of_difference. tauto.
  - (* join *)
    simpl. destruct (truthy_str (jd_username data)) eqn:Hu;
      [|unfold on_join; by rewrite Hu].
    destruct (truthy_str (jd_room data)) eqn:Hr;
      [|unfold on_join; by rewrite Hu, Hr].
    destruct (truthy_str_default _ Hu) as [_ Hu'].
    destruct (truthy_str_default _ Hr) as [_ Hr'].
    destruct (on_join_cases sid now data s) as [-> | (t' & _ & ->)]; [done|].
    unfold well_formed_presence. simpl. split.
    + intros sid' u. rewrite lookup_insert. case_decide; [by intros [= <-]|eauto].
    + intros r X. rewrite lookup_insert. case_decide as Hd; [|by apply Hrooms].
      intros [= <-]. subst r. split; [done|].
      unfold roster. destruct (rooms_users s !! default "" (jd_room data)) as [Y|] eqn:HY.
      * destruct (Hrooms _ Y HY) as [_ HY']. simpl.
        rewrite elem_of_union, elem_of_singleton. intros [?|?]; [congruence | done].
      * simpl. rewrite elem_of_union, elem_of_singleton.
        intros [? | ?%not_elem_of_empty]; [congruence | done].
  - (* leave *)
    simpl. unfold on_leave, well_formed_presence.
    destruct (negb _ || negb _); simpl; [done|].
    destruct (rooms_users s !! default "" (ld_room data)) as [Y|] eqn:HY; simpl.
    2:{ split; [|done]. intros sid' u Hu. apply lookup_delete_Some in Hu as [_ Hu]. eauto. }
    case_bool_decide; simpl.
    2:{ split; [|done]. intros sid' u Hu. apply lookup_delete_Some in Hu as [_ Hu]. eauto. }
    split.
    + intros sid' u Hu. apply lookup_delete_Some in Hu as [_ Hu]. eauto.
    + intros r X. rewrite lookup_insert. case_decide as Hd; [|by apply Hrooms].
      intros [= <-]. subst r. destruct (Hrooms _ Y HY) as [? HY']. split; [done|].
      rewrite elem_of_difference. tauto.
Qed.

(** X10. In every state reached from the empty server, no connection is
    bound to the empty username, no room with an empty name has a roster,
    and no roster holds the empty username: the handlers ignore a join that
    lacks the username or the room. *)
Theorem reachable_presence_well_formed `{PyHost} (evs : list event) :
  well_formed_presence (run evs initial_state).1.
Proof.
  assert (∀ s, well_formed_presence s → well_formed_presence (run evs s).1) as Hrun.
  { induction evs as [|ev evs IH]; intros s Hs; [done|].
    rewrite run_cons. by apply IH, step_well_formed_presence. }
  apply Hrun. split; intros ?? Hx; simpl in Hx; by rewrite lookup_empty in Hx.
Qed.

(** ** History: [get_messages] *)

#[local] Instance row_le_total : Total row_le.
Proof.
  intros a b. unfold row_le.
  destruct (timestamp_key a) as [na ta], (timestamp_key b) as [nb tb]. simpl. lia.
Qed.

#[local] Instance row_le_trans : Transitive row_le.
Proof.
  intros a b c. unfold row_le.
  destruct (timestamp_key a) as [na ta], (timestamp_key b) as [nb tb],
           (timestamp_key c) as [nc tc]. simpl. lia.
Qed.

Lemma elem_of_query_messages (room : string) (min_time : option Z)
    (t : gmap Z Message.t) (row : Z * Message.t) :
  row ∈ query_messages room min_time t ↔
    t !! row.1 = Some row.2 ∧ in_history room min_time row = true.
Proof.
  unfold query_messages. rewrite merge_sort_Permutation, list_elem_of_filter.
  destruct row as [i m]. rewrite elem_of_map_to_list. simpl.
  split; intros [H1 H2]; split; try done.
  - by apply Is_true_true.
  - by apply Is_true_true.
Qed.

Lemma mapM_elem_of {A B : Type} (f : A → option B) (l : list A) (k : list B) :
  mapM f l = Some k →
  ∀ y, y ∈ k ↔ ∃ x, x ∈ l ∧ f x = Some y.
Proof.
  intros Hk%mapM_Some. induction Hk as [|x y l k Hxy Hk IH]; intros z.
  - split; [by intros ?%elem_of_nil | by intros (x & ?%elem_of_nil & _)].
  - rewrite elem_of_cons, IH. split.
    + intros [->|(x' & Hx' & Hz)].
      * exists x. split; [apply list_elem_of_here | done].
      * exists x'. split; [by apply list_elem_of_further | done].
    + intros (x' & [->|Hx']%elem_of_cons & Hz).
      * left. congruence.
      * right. by exists x'.
Qed.

Lemma row_le_timestamps (a b : Z * Message.t) (ja jb : message_json) :
  row_le a b →
  message_to_json a = Some ja → message_to_json b = Some jb →
  mj_timestamp ja ≤ mj_timestamp jb.
Proof.
  unfold row_le, message_to_json, timestamp_key.
  destruct (Message.timestamp a.2), (Message.timestamp b.2); try done.
  intros Hle [= <-] [= <-]. simpl in *. lia.
Qed.

Lemma mapM_sorted (l : list (Z * Message.t)) (k : list message_json) :
  mapM message_to_json l = Some k →
  StronglySorted row_le l →
  StronglySorted (λ a b, mj_timestamp a ≤ mj_timestamp b) k.
Proof.
  intros Hk%mapM_Some. induction Hk as [|x y l k Hxy Hk IH]; intros Hsorted.
  - constructor.
  - apply StronglySorted_inv in Hsorted as [Hl Hx]. constructor; [by apply IH|].
    apply Forall_forall. intros z Hz.
    apply (mapM_elem_of message_to_json l k) in Hz as (x' & Hx' & Hz);
      [|by apply mapM_Some].
    eapply row_le_timestamps; [|done..].
    rewrite Forall_forall in Hx. by apply Hx.
Qed.

(** Whatever the query, the listed messages are rows of the room that have
    a timestamp. *)
Lemma get_messages_elem (room : string) (username : option string) (s : state)
    (l : list message_json) (j : message_json) :
  get_messages room username s = Some l →
  j ∈ l →
  ∃ i m, db_message s !! i = Some m ∧ Message.room m = room ∧
         message_to_json (i, m) = Some j.
Proof.
  unfold get_messages. intros Hl Hj.
  apply (mapM_elem_of _ _ _ Hl) in Hj as ([i m] & Hrow & Hjson).
  exists i, m.
  assert (∀ mt, (i, m) ∈ query_messages room mt (db_message s) →
                db_message s !! i = Some m ∧ Message.room m = room) as Hq.
  { intros mt [Hm Hin]%elem_of_query_messages. split; [done|].
    unfold in_history in Hin. apply andb_true_iff in Hin as [Hroom _].
    by apply bool_decide_eq_true in Hroom. }
  destruct (truthy_str username).
  - destruct (db_room_join s !! (room, default "" username)).
    + destruct (Hq _ Hrow). done.
    + by apply elem_of_nil in Hrow.
  - destruct (Hq _ Hrow). done.
Qed.

Lemma mapM_message_ids (rows : list (Z * Message.t)) (l : list message_json) :
  mapM message_to_json rows = Some l → mj_id <$> l = rows.*1.
Proof.
  intros Hl%mapM_Some. induction Hl as [|row j rows l Hj Hl IH]; [done|].
  rewrite !fmap_cons, IH. f_equal.
  unfold message_to_json in Hj. destruct (Message.timestamp row.2); [|done].
  by injection Hj as <-.
Qed.

Lemma query_messages_ids (room : string) (min_time : option Z)
    (t : gmap Z Message.t) :
  NoDup (query_messages room min_time t).*1.
Proof.
  unfold query_messages. rewrite merge_sort_Permutation.
  apply (sublist_NoDup _ (map_to_list t).*1); [apply NoDup_fst_map_to_list|].
  apply fmap_sublist, sublist_filter.
Qed.

(** X11. With a username, the history route never raises.  It lists, once
    each and in ascending order of timestamp, exactly the messages of the
    room whose timestamp is set and at or after the join time recorded for
    (room, username); without a recorded join it lists nothing. *)
Theorem get_messages_since_join (room : string) (username : option string)
    (s : state) :
  truthy_str username = true →
  ∃ l,
    get_messages room username s = Some l ∧
    NoDup (mj_id <$> l) ∧
    (∀ j, j ∈ l ↔
          ∃ i m min_time,
            db_room_join s !! (room, default "" username) = Some min_time ∧
            db_message s !! i = Some m ∧
            Message.room m = room ∧
            message_to_json (i, m) = Some j ∧
            min_time ≤ mj_timestamp j) ∧
    StronglySorted (λ a b, mj_timestamp a ≤ mj_timestamp b) l.
Proof.
  intros Hu. unfold get_messages. rewrite Hu.
  destruct (db_room_join s !! (room, default "" username)) as [min_time|] eqn:Hjoin.
  2:{ exists []. split; [done|]. split; [constructor|]. split; [|constructor].
      intros j. split; [by intros ?%elem_of_nil | by intros (? & ? & ? & ? & _)]. }
  set (rows := query_messages room (Some min_time) (db_message s)).
  assert (is_Some (mapM message_to_json rows)) as [l Hl].
  { apply mapM_is_Some, Forall_forall. intros [i m] [_ Hin]%elem_of_query_messages.
    unfold in_history in Hin. apply andb_true_iff in Hin as [_ Hin].
    unfold message_to_json. simpl in *. by destruct (Message.timestamp m). }
  exists l. split; [done|]. split.
  { rewrite (mapM_message_ids rows l Hl). apply query_messages_ids. }
  split.
  - intros j. rewrite (mapM_elem_of _ _ _ Hl). split.
    + intros ([i m] & [Hm Hin]%elem_of_query_messages & Hjson).
      exists i, m, min_time. unfold in_history in Hin.
      apply andb_true_iff in Hin as [Hroom%bool_decide_eq_true Hin].
      repeat split; try done.
      unfold message_to_json in Hjson. simpl in *.
      destruct (Message.timestamp m); [|done].
      injection Hjson as <-. simpl. by apply bool_decide_eq_true in Hin.
    + intros (i & m & t0 & [= <-] & Hm & Hroom & Hjson & Hle).
      exists (i, m). split; [|done].
      apply elem_of_query_messages. split; [done|].
      unfold in_history. simpl. rewrite bool_decide_eq_true_2 by done. simpl.
      unfold message_to_json in Hjson. simpl in Hjson.
      destruct (Message.timestamp m); [|done].
      injection Hjson as <-. simpl in Hle. by apply bool_decide_eq_true_2.
  - apply (mapM_sorted rows); [done|].
    apply StronglySorted_merge_sort; apply _.
Qed.

Lemma get_messages_None (room : string) (username : option string) (s : state) :
  truthy_str username = false →
  get_messages room username s = None ↔
    ∃ i m, db_message s !! i = Some m ∧ Message.room m = room ∧
           Message.timestamp m = None.
Proof.
  intros Hu. unfold get_messages. rewrite Hu, mapM_None, Exists_exists. split.
  - intros ([i m] & [Hm Hin]%elem_of_query_messages & Hnone).
    exists i, m. unfold in_history in Hin.
    apply andb_true_iff in Hin as [Hroom%bool_decide_eq_true _].
    repeat split; try done.
    unfold message_to_json in Hnone. simpl in Hnone.
    by destruct (Message.timestamp m).
  - intros (i & m & Hm & Hroom & Hts). exists (i, m). split.
    + apply elem_of_query_messages. split; [done|].
      unfold in_history. simpl. by rewrite bool_decide_eq_true_2.
    + unfold message_to_json. simpl. by rewrite Hts.
Qed.

(** X12. Without a username, the history route raises exactly when some
    message of the room has a null timestamp. *)
Theorem get_messages_raises (room : string) (username : option string) (s : state) :
  truthy_str username = false →
  get_messages room username s = None ↔
    ∃ i m, db_message s !! i = Some m ∧ Message.room m = room ∧
           Message.timestamp m = None.
Proof. apply get_messages_None. Qed.

(** X13. In every state reached from the empty server the history route
    never returns a message: since no handler sets a timestamp, a response
    that is produced is the empty list. *)
Theorem reachable_history_never_lists `{PyHost} (evs : list event)
    (room : string) (username : option string) (l : list message_json) :
  get_messages room username (run evs initial_state).1 = Some l →
  l = [].
Proof.
  intros Hl. destruct l as [|j l]; [done|].
  destruct (get_messages_elem room username _ _ j Hl) as (i & m & Hm & _ & Hjson);
    [apply list_elem_of_here|].
  destruct (reachable_well_formed evs i m Hm) as [Hts _].
  unfold message_to_json in Hjson. simpl in Hjson. by rewrite Hts in Hjson.
Qed.

(** X14. In every state reached from the empty server, the history route
    without a username raises for every room that holds a message. *)
Theorem reachable_history_raises `{PyHost} (evs : list event) (i : Z)
    (m : Message.t) :
  db_message (run evs initial_state).1 !! i = Some m →
  get_messages (Message.room m) None (run evs initial_state).1 = None.
Proof.
  intros Hm. apply get_messages_None; [done|].
  exists i, m. repeat split; [done|].
  by destruct (reachable_well_formed evs i m Hm).
Qed.

(** ** Create, expiry and the sweep *)

Lemma normalize_expiry_future `{PyHost} (now : Z) (v : pyval) (e : Z) :
  normalize_expiry now v = Some e → now < e.
Proof.
  unfold normalize_expiry, one_second. destruct (truthy v); [|done].
  destruct (py_int v ≫= utc_fromtimestamp_ms) as [d|]; [|done].
  case_bool_decide; intros [= <-]; lia.
Qed.

(** X15. A message is never expired at the instant it is created: whatever
    expiry the event supplies, a sweep that reads the same clock value
    right after the creation keeps the new row. *)
Theorem created_message_survives_sweep `{PyHost} (sid : string) (now : Z)
    (data : message_data) (s : state) :
  unsafe_plaintext (md_plaintext data) = false →
  ∃ msg,
    db_message (handle_message sid now data s).1 !! fresh_id (db_message s) = Some msg ∧
    expired now msg = false ∧
    db_message (delete_expired_messages now (handle_message sid now data s).1).1
      !! fresh_id (db_message s) = Some msg.
Proof.
  intros Hsafe.
  destruct (handle_message_accepted sid now data s Hsafe) as (_ & Hdb & _).
  eexists. split; [by rewrite Hdb, lookup_insert_eq|].
  assert (expired now
            (Message.mk (md_room data) (acting_username sid s) (md_encrypted_map data)
               (md_fileUrl data) (md_fileName data) None
               (normalize_expiry now (md_expires_at data)) true false []
               (md_delete_on_read data) (md_require_all_read data)) = false) as Hexp.
  { unfold expired. simpl.
    destruct (normalize_expiry now (md_expires_at data)) as [e|] eqn:He; [|done].
    apply normalize_expiry_future in He. apply bool_decide_eq_false_2. lia. }
  split; [done|].
  destruct (delete_expired_messages_spec now (handle_message sid now data s).1)
    as (_ & _ & _ & _ & Hsweep).
  by rewrite Hsweep, Hdb, lookup_insert_eq, Hexp.
Qed.

(** X16. An expiry instant strictly after the current time is stored as
    supplied. *)
Theorem handle_message_future_expiry `{PyHost} (sid : string) (now : Z)
    (data : message_data) (s : state) (ms d : Z) :
  unsafe_plaintext (md_plaintext data) = false →
  truthy (md_expires_at data) = true →
  py_int (md_expires_at data) = Some ms →
  utc_fromtimestamp_ms ms = Some d →
  now < d →
  ∃ msg,
    db_message (handle_message sid now data s).1 !! fresh_id (db_message s) = Some msg ∧
    Message.expires_at msg = Some d.
Proof.
  intros Hsafe Htrue Hint Hd Hlt.
  destruct (handle_message_accepted sid now data s Hsafe) as (_ & -> & _).
  eexists. split; [by rewrite lookup_insert_eq|]. simpl.
  unfold normalize_expiry. rewrite Htrue, Hint. simpl. rewrite Hd.
  by rewrite bool_decide_eq_false_2 by lia.
Qed.

(** X18. One run of the sweep removes no message that is not expired at
    the clock value (its expiry is null or after it), alters no message it
    keeps, adds none, and changes neither the bindings nor the rosters. *)
Theorem sweep_keeps_live_messages (now : Z) (s : state) :
  users (delete_expired_messages now s).1 = users s ∧
  rooms_users (delete_expired_messages now s).1 = rooms_users s ∧
  (∀ i msg, db_message (delete_expired_messages now s).1 !! i = Some msg →
            db_message s !! i = Some msg) ∧
  (∀ i msg, db_message s !! i = Some msg →
            expired now msg = false →
            db_message (delete_expired_messages now s).1 !! i = Some msg).
Proof.
  destruct (delete_expired_messages_spec now s) as (_ & Hu & Hr & _ & Hdb).
  split; [done|]. split; [done|]. split.
  - intros i msg. rewrite Hdb. destruct (db_message s !! i) as [m|]; [|done].
    by destruct (expired now m).
  - intros i msg Hmsg Hlive. by rewrite Hdb, Hmsg, Hlive.
Qed.

Lemma expired_max (now1 now2 : Z) (msg : Message.t) :
  expired (Z.max now1 now2) msg = expired now1 msg || expired now2 msg.
Proof.
  unfold expired. destruct (Message.expires_at msg) as [e|]; [|done].
  repeat case_bool_decide; simpl; try done; lia.
Qed.

(** X19. Sweeps compose: two runs leave the messages that one run at the
    later of the two clock values leaves; in particular a second run at
    the same clock value removes nothing more. *)
Theorem sweep_twice (now1 now2 : Z) (s : state) :
  db_message (delete_expired_messages now2 (delete_expired_messages now1 s).1).1 =
  db_message (delete_expired_messages (Z.max now1 now2) s).1.
Proof.
  apply map_eq. intros i.
  destruct (delete_expired_messages_spec now2 (delete_expired_messages now1 s).1)
    as (_ & _ & _ & _ & ->).
  destruct (delete_expired_messages_spec now1 s) as (_ & _ & _ & _ & ->).
  destruct (delete_expired_messages_spec (Z.max now1 now2) s) as (_ & _ & _ & _ & ->).
  destruct (db_message s !! i) as [msg|]; [|done].
  rewrite expired_max. destruct (expired now1 msg); simpl; [done|].
  by destruct (expired now2 msg).
Qed.

(** ** Content filter *)

(** X20. [is_content_safe] fails exactly on a text whose lower-cased form
    contains one of the five keywords as a substring; the absent text is
    treated as the empty one. *)
Theorem is_content_safe_spec `{PyHost} (text : option string) :
  is_content_safe text = false ↔
    ∃ kw a b, kw ∈ unsafe_keywords ∧ str_lower (default "" text) = a +:+ kw +:+ b.
Proof.
  unfold is_content_safe. rewrite negb_false_iff, existsb_exists. split.
  - intros (kw & Hkw%list_elem_of_In & (a & b & Hab)%contains_spec). by exists kw, a, b.
  - intros (kw & a & b & Hkw & Hab). exists kw. split; [by apply list_elem_of_In|].
    apply contains_spec. by exists a, b.
Qed.

(** X21. The filter sees only the preview: a message event without a
    preview, or with an empty one, is never rejected.  It is stored under
    the fresh id, every other row stays as it is, and exactly one [message]
    event goes to the room, carrying that id and the acting username. *)
Theorem handle_message_without_preview `{PyHost} (sid : string) (now : Z)
    (data : message_data) (s : state) :
  truthy_str (md_plaintext data) = false →
  ∃ p msg,
    (handle_message sid now data s).2 = [(EvMessage p, ToRoom (md_room data))] ∧
    mp_id p = fresh_id (db_message s) ∧
    mp_user p = acting_username sid s ∧
    db_message s !! mp_id p = None ∧
    db_message (handle_message sid now data s).1 !! mp_id p = Some msg ∧
    Message.username msg = mp_user p ∧
    Message.expires_at msg = mp_expires_at p ∧
    ∀ j, j ≠ mp_id p →
         db_message (handle_message sid now data s).1 !! j = db_message s !! j.
Proof.
  intros Hnone.
  assert (unsafe_plaintext (md_plaintext data) = false) as Hsafe.
  { unfold unsafe_plaintext. by rewrite Hnone. }
  destruct (handle_message_accepted sid now data s Hsafe) as (Hnew & Hdb & _).
  unfold handle_message in *. rewrite Hsafe in *. simpl in *.
  eexists _, _. split; [done|]. simpl.
  split; [done|]. split; [done|]. split; [done|].
  split; [by rewrite lookup_insert_eq|]. split; [done|]. split; [done|].
  intros j Hj. by rewrite lookup_insert_ne.
Qed.

(** ** The message routes *)

Lemma set_db_message_same (s : state) : set_db_message (db_message s) s = s.
Proof. by destruct s. Qed.

(** X22. Deleting the message that was just created undoes the creation:
    the state is the one before the [message] event, and the route emits
    one [delete_message] to the room the message was sent to. *)
Theorem create_then_delete `{PyHost} (sid : string) (now : Z) (data : message_data)
    (s : state) :
  unsafe_plaintext (md_plaintext data) = false →
  delete_message (fresh_id (db_message s)) (handle_message sid now data s).1 =
    (s, [(EvDeleteMessage (fresh_id (db_message s)), ToRoom (md_room data))], 200).
Proof.
  intros Hsafe. unfold handle_message. rewrite Hsafe. simpl.
  unfold delete_message. simpl. rewrite lookup_insert_eq. simpl.
  unfold set_db_message. simpl.
  rewrite delete_insert_eq, delete_id by apply fresh_id_unused.
  by destruct s.
Qed.

(** X23. A message is deleted once: a second delete request for the same
    id answers 404, changes nothing and emits nothing. *)
Theorem delete_message_twice (msg_id : Z) (s : state) :
  delete_message msg_id (delete_message msg_id s).1.1 =
    ((delete_message msg_id s).1.1, [], 404).
Proof.
  unfold delete_message at 2 3.
  destruct (db_message s !! msg_id) as [msg|] eqn:Hmsg; simpl.
  - unfold delete_message. simpl. by rewrite lookup_delete_eq.
  - unfold delete_message. by rewrite Hmsg.
Qed.

(** X24. The mark-read request is not guarded by the flag: repeated on a
    message that is already marked it leaves the state as it is and
    broadcasts [message_read] again. *)
Theorem mark_read_twice (msg_id : Z) (s : state) (msg : Message.t) :
  db_message s !! msg_id = Some msg →
  mark_read msg_id (mark_read msg_id s).1.1 =
    ((mark_read msg_id s).1.1,
     [(EvMessageRead msg_id (Message.room msg), ToRoom (Message.room msg))], 200).
Proof.
  intros Hmsg. unfold mark_read at 2 3. rewrite Hmsg. simpl.
  unfold mark_read. simpl. rewrite lookup_insert_eq. simpl.
  unfold set_db_message. simpl. by rewrite insert_insert_eq.
Qed.

(** X25. Of two edits of the same message the last one decides the
    content: the first leaves no trace in the table. *)
Theorem edit_message_last_wins (msg_id : Z) (data1 data2 : edit_data) (s : state) :
  truthy_map (or_map (ed_encrypted_map data2) (ed_encryptedmap data2)) = true →
  db_message (edit_message msg_id data2 (edit_message msg_id data1 s).1.1).1.1 =
  db_message (edit_message msg_id data2 s).1.1.
Proof.
  intros H2. unfold edit_message at 2.
  destruct (negb (truthy_map (or_map (ed_encrypted_map data1) (ed_encryptedmap data1))));
    simpl; [done|].
  destruct (db_message s !! msg_id) as [msg|] eqn:Hmsg; simpl; [|done].
  unfold edit_message. rewrite H2. simpl. rewrite lookup_insert_eq, Hmsg. simpl.
  by rewrite insert_insert_eq.
Qed.

(** ** Upload file names *)

Lemma contains_dot_cons (c : ascii) (rest : string) :
  contains "." (String c rest) = Ascii.eqb c "."%char || contains "." rest.
Proof.
  cbn [contains]. f_equal.
  change (String.prefix "." (String c rest))
    with (if Ascii.ascii_dec "."%char c then String.prefix "" rest else false).
  destruct (Ascii.ascii_dec "."%char c) as [<-|Hne].
  - by destruct rest.
  - symmetry. apply Ascii.eqb_neq. congruence.
Qed.

Lemma after_last_dot_None (filename : string) :
  after_last_dot filename = None ↔ contains "." filename = false.
Proof.
  induction filename as [|c rest IH]; [done|].
  rewrite contains_dot_cons. cbn [after_last_dot].
  destruct (after_last_dot rest) as [ext|].
  - split; [done|]. intros [_ Hrest]%orb_false_iff. apply IH in Hrest. done.
  - destruct (Ascii.eqb c "."%char); simpl; [done|]. by rewrite <- IH.
Qed.

Lemma after_last_dot_Some (filename ext : string) :
  after_last_dot filename = Some ext ↔
    ∃ base, filename = base +:+ "." +:+ ext ∧ contains "." ext = false.
Proof.
  split.
  - revert ext. induction filename as [|c rest IH]; intros ext; [done|].
    cbn [after_last_dot].
    destruct (after_last_dot rest) as [ext'|] eqn:Hrest.
    + intros [= <-]. destruct (IH ext' eq_refl) as (base & -> & Hdot).
      by exists (String c base).
    + destruct (Ascii.eqb c "."%char) eqn:Hc; [|done].
      intros [= <-]. apply Ascii.eqb_eq in Hc as ->.
      exists "". split; [done|]. by apply after_last_dot_None.
  - intros (base & -> & Hdot). induction base as [|c base IH].
    + change ("" +:+ "." +:+ ext) with (String "."%char ext).
      cbn [after_last_dot]. apply after_last_dot_None in Hdot. by rewrite Hdot.
    + rewrite append_cons. cbn [after_last_dot]. by rewrite IH.
Qed.

(** X26. A file name is allowed exactly when it has a dot and the text
    after its last dot, lower-cased, is one of the eight extensions: only
    the last extension counts, and a name without a dot is refused. *)
Theorem allowed_file_spec `{PyHost} (filename : string) :
  allowed_file filename = true ↔
    ∃ base ext, filename = base +:+ "." +:+ ext ∧
                contains "." ext = false ∧
                str_lower ext ∈ ALLOWED_EXTENSIONS.
Proof.
  unfold allowed_file. split.
  - destruct (after_last_dot filename) as [ext|] eqn:Hext; [|done].
    intros Hin%bool_decide_eq_true.
    apply after_last_dot_Some in Hext as (base & -> & Hdot). by exists base, ext.
  - intros (base & ext & -> & Hdot & Hin).
    rewrite (proj2 (after_last_dot_Some _ ext)) by by exists base.
    by apply bool_decide_eq_true.
Qed.

(** ** Public keys *)

Lemma find_user_set_public_key (username : string) (public_key : option string)
    (t : list User.t) (user : User.t) :
  find_user username t = Some user →
  find_user username (set_public_key username public_key t) =
    Some (User.mk (User.email user) (User.username user) (User.is_anonymous user)
            public_key).
Proof.
  unfold find_user. induction t as [|u t IH]; [done|]. cbn [List.find set_public_key].
  case_bool_decide as Hu.
  - intros [= <-]. cbn [List.find]. simpl. by rewrite bool_decide_eq_true_2.
  - intros Hfind. cbn [List.find]. rewrite bool_decide_eq_false_2 by done. by apply IH.
Qed.

Lemma find_user_snoc (username : string) (t : list User.t) (user : User.t) :
  find_user username t = None →
  User.username user = username →
  find_user username (t ++ [user]) = Some user.
Proof.
  unfold find_user. intros Hnone Hname. induction t as [|u t IH]; simpl in *.
  - by rewrite bool_decide_eq_true_2.
  - destruct (bool_decide (User.username u = username)); [done|]. by apply IH.
Qed.

(** X27. A join that carries a public key publishes it: after the join
    the public-key route answers 200 with that key for the username,
    whichever connection joined and whatever key was stored before. *)
Theorem join_publishes_key (sid : string) (now : Z) (data : join_data)
    (s s1 : state) (out : list emitted) :
  truthy_str (jd_username data) = true →
  truthy_str (jd_room data) = true →
  truthy_str (jd_publicKey data) = true →
  on_join sid now data s = Some (s1, out) →
  get_public_key (default "" (jd_username data)) s1 = (jd_publicKey data, 200).
Proof.
  intros Hu Hr Hk Hjoin.
  set (username := default "" (jd_username data)) in *.
  destruct (join_user username (jd_publicKey data) (db_user s)) as [t1|] eqn:Ht.
  2:{ unfold on_join in Hjoin. rewrite Hu, Hr in Hjoin. simpl in Hjoin.
      fold username in Hjoin. by rewrite Ht in Hjoin. }
  rewrite (on_join_effective sid now data s t1 Hu Hr Ht) in Hjoin.
  injection Hjoin as <- <-. unfold get_public_key. simpl.
  unfold join_user in Ht. rewrite Hk in Ht. simpl in Ht.
  destruct (find_user username (db_user s)) as [user|] eqn:Hfind.
  - case_bool_decide as Hsame; simpl in Ht; injection Ht as <-.
    + by rewrite Hfind, Hsame, Hk.
    + rewrite (find_user_set_public_key _ _ _ user Hfind). simpl. by rewrite Hk.
  - destruct (email_taken _ _); [done|]. injection Ht as <-.
    rewrite (find_user_snoc username (db_user s)
               (User.mk (username +:+ "@example.com") username true (jd_publicKey data))
               Hfind eq_refl). simpl.
    by rewrite Hk.
Qed.

(** ** Reactions *)

Lemma reactions_from_app (k : Z) (message_id : string) (t1 t2 : list Reactions.row) :
  Reactions.reactions_from k message_id (t1 ++ t2) =
    Reactions.reactions_from k message_id t1 ++
    Reactions.reactions_from (k + Z.of_nat (length t1)) message_id t2.
Proof.
  revert k. induction t1 as [|r t1 IH]; intros k.
  - simpl. by rewrite Z.add_0_r.
  - cbn [app Reactions.reactions_from length]. rewrite IH, <- app_assoc.
    do 3 f_equal. lia.
Qed.

(** X28. A reaction that names a user and an emoji is stored, whether or
    not the same user reacted before: afterwards the list of the reactions
    of that message is the list before followed by the new reaction, keyed
    by the number of rows so far plus one; the list of every other message
    is unchanged; and one [reaction] event is broadcast. *)
Theorem react_then_list (message_id : string) (data : Reactions.react_data)
    (table : list Reactions.row) :
  truthy_str (Reactions.rd_user_id data) = true →
  truthy_str (Reactions.rd_emoji data) = true →
  (Reactions.react_to_message message_id data table).2 = 200 ∧
  (Reactions.react_to_message message_id data table).1.2 =
    [Reactions.EvReaction message_id] ∧
  Reactions.get_message_reactions message_id
    (Reactions.react_to_message message_id data table).1.1 =
    Reactions.get_message_reactions message_id table ++
    [Reactions.ReactionJson (Z.of_nat (length table) + 1)
       (default "" (Reactions.rd_user_id data))
       (default "" (Reactions.rd_emoji data))] ∧
  ∀ other, other ≠ message_id →
           Reactions.get_message_reactions other
             (Reactions.react_to_message message_id data table).1.1 =
           Reactions.get_message_reactions other table.
Proof.
  intros Hu He. unfold Reactions.react_to_message. rewrite Hu, He. simpl.
  split; [done|]. split; [done|].
  unfold Reactions.get_message_reactions. split.
  - rewrite reactions_from_app. simpl. rewrite bool_decide_eq_true_2 by done.
    simpl. do 3 f_equal. lia.
  - intros other Hother. rewrite reactions_from_app. simpl.
    rewrite bool_decide_eq_false_2 by done. by rewrite app_nil_r.
Qed.

(** ** The further statements on example inputs *)

(** Witness of X2: bob's connection drops in the lobby. *)
Lemma on_disconnect_clears_rosters_witness :
  users (on_disconnect "sid-bob" Scenario.lobby).1 =
    delete "sid-bob" (users Scenario.lobby) ∧
  (∀ r, roster r (on_disconnect "sid-bob" Scenario.lobby).1 =
        roster r Scenario.lobby ∖ {["bob"]}) ∧
  db_message (on_disconnect "sid-bob" Scenario.lobby).1 = db_message Scenario.lobby ∧
  NoDup (on_disconnect "sid-bob" Scenario.lobby).2 ∧
  (∀ e, e ∈ (on_disconnect "sid-bob" Scenario.lobby).2 ↔
        ∃ r, "bob" ∈ roster r Scenario.lobby ∧
             e = (EvOnlineUsers (roster r Scenario.lobby ∖ {["bob"]}), ToRoom r)).
Proof. apply on_disconnect_clears_rosters; by_compute. Defined.

(** Witness of X3: carol joins the lobby, where alice and bob are. *)
Lemma on_join_enters_witness :
  users Tour.carol_joined.1 = <["sid-carol" := "carol"]> (users Scenario.lobby) ∧
  (∀ r, roster r Tour.carol_joined.1 =
        if decide ("lobby" = r) then {["carol"]} ∪ roster r Scenario.lobby
        else roster r Scenario.lobby) ∧
  db_room_join Tour.carol_joined.1 =
    <[("lobby", "carol") := Scenario.t0 + 5]> (db_room_join Scenario.lobby) ∧
  db_message Tour.carol_joined.1 = db_message Scenario.lobby ∧
  ("carol" ∉ roster "lobby" Scenario.lobby →
   Tour.carol_joined.2 =
     [(EvStatus ("carol" +:+ " has entered the room."), ToRoomSkip "lobby" "sid-carol");
      (EvOnlineUsers ({["carol"]} ∪ roster "lobby" Scenario.lobby), ToRoom "lobby")]).
Proof.
  apply (on_join_enters "sid-carol" (Scenario.t0 + 5) Tour.carol Scenario.lobby);
    by_compute.
Defined.

(** Witness of X4: bob leaves the kitchen, which nobody ever joined. *)
Lemma on_leave_absent_witness :
  on_leave "sid-bob" (LeaveData (Some "bob") (Some "kitchen")) Scenario.lobby =
    (set_users (delete "sid-bob" (users Scenario.lobby)) Scenario.lobby, []).
Proof. apply on_leave_absent; [by_compute | by_compute | refute_by_compute]. Defined.

(** Witness of X5: carol joins the lobby and bob's connection sends the
    leave for her. *)
Lemma leave_after_join_witness :
  users (on_leave "sid-bob" (LeaveData (Some "carol") (Some "lobby"))
           Tour.carol_joined.1).1 !! "sid-carol" = Some "carol" ∧
  (∀ r, roster r (on_leave "sid-bob" (LeaveData (Some "carol") (Some "lobby"))
                    Tour.carol_joined.1).1 =
        if decide ("lobby" = r) then roster r Scenario.lobby ∖ {["carol"]}
        else roster r Scenario.lobby) ∧
  (on_leave "sid-bob" (LeaveData (Some "carol") (Some "lobby"))
     Tour.carol_joined.1).2 =
    [(EvOnlineUsers (roster "lobby" Scenario.lobby ∖ {["carol"]}), ToRoom "lobby");
     (EvStatus ("carol" +:+ " has left the room."), ToRoomSkip "lobby" "sid-bob")].
Proof.
  apply (leave_after_join "sid-carol" "sid-bob" (Scenario.t0 + 5) Tour.carol
           Scenario.lobby Tour.carol_joined.1 Tour.carol_joined.2); by_compute.
Defined.

(** Witness of X7: the mark-read request on message 1 of the lobby. *)
Lemma step_message_evolves_witness :
  evolves (Scenario.row "alice" "lobby" None false [] true false)
          (Scenario.row "alice" "lobby" None true [] true false).
Proof.
  apply (step_message_evolves (H := SampleHost.host) (MarkRead 1) Scenario.lobby 1);
    by_compute.
Defined.

(** Witness of X8: bob sends a second message to the lobby. *)
Lemma step_message_created_witness :
  ∃ sid now data,
    SendMessage "sid-bob" (Scenario.t0 + 7) (Tour.note PNone) =
      SendMessage sid now data ∧
    2 = fresh_id (db_message Scenario.plain_lobby) ∧
    Scenario.row "bob" "lobby" None false [] false false =
      Message.mk (md_room data) (acting_username sid Scenario.plain_lobby)
        (md_encrypted_map data) (md_fileUrl data) (md_fileName data) None
        (normalize_expiry (H := SampleHost.host) now (md_expires_at data)) true false []
        (md_delete_on_read data) (md_require_all_read data).
Proof.
  apply (step_message_created (H := SampleHost.host)); by_compute.
Defined.

(** Witness of X9: message 1 after the events of [Tour.story]. *)
Lemma reachable_messages_well_formed_witness :
  well_formed_message (Scenario.row "alice" "lobby" None true ["bob"] true true).
Proof.
  apply (reachable_messages_well_formed (H := SampleHost.host) Tour.story 1).
  by_compute.
Defined.

(** Witness of X11: bob, who joined the lobby at time 20, reads the history
    of [Tour.archive]. *)
Lemma get_messages_since_join_witness :
  ∃ l,
    get_messages "lobby" (Some "bob") Tour.archive = Some l ∧
    NoDup (mj_id <$> l) ∧
    (∀ j, j ∈ l ↔
          ∃ i m min_time,
            db_room_join Tour.archive !! ("lobby", default "" (Some "bob")) =
              Some min_time ∧
            db_message Tour.archive !! i = Some m ∧
            Message.room m = "lobby" ∧
            message_to_json (i, m) = Some j ∧
            min_time ≤ mj_timestamp j) ∧
    StronglySorted (λ a b, mj_timestamp a ≤ mj_timestamp b) l.
Proof. apply get_messages_since_join. by_compute. Defined.

(** Witness of X12: the history of the lobby, without a username. *)
Lemma get_messages_raises_witness :
  get_messages "lobby" None Scenario.lobby = None ↔
    ∃ i m, db_message Scenario.lobby !! i = Some m ∧ Message.room m = "lobby" ∧
           Message.timestamp m = None.
Proof. apply get_messages_raises. by_compute. Defined.

(** Witness of X13: bob reads the history after the events of
    [Tour.story]. *)
Lemma reachable_history_never_lists_witness :
  get_messages "lobby" (Some "bob")
    (run (H := SampleHost.host) Tour.story initial_state).1 = Some [] ∧
  ([] : list message_json) = [].
Proof.
  split; [by_compute|].
  apply (reachable_history_never_lists (H := SampleHost.host) Tour.story
           "lobby" (Some "bob")).
  by_compute.
Defined.

(** Witness of X14: the history of the lobby after the events of
    [Tour.story]. *)
Lemma reachable_history_raises_witness :
  get_messages
    (Message.room (Scenario.row "alice" "lobby" None true ["bob"] true true)) None
    (run (H := SampleHost.host) Tour.story initial_state).1 = None.
Proof.
  apply (reachable_history_raises (H := SampleHost.host) Tour.story 1). by_compute.
Defined.

(** Witness of X15: a message that asks to expire in September 2020 is
    sent, and the sweep runs, at [Scenario.t0]. *)
Lemma created_message_survives_sweep_witness :
  ∃ msg,
    db_message
      (handle_message (H := SampleHost.host) "sid-bob" Scenario.t0
         (Tour.note (PInt 1600000000000)) Scenario.lobby).1
      !! fresh_id (db_message Scenario.lobby) = Some msg ∧
    expired Scenario.t0 msg = false ∧
    db_message
      (delete_expired_messages Scenario.t0
         (handle_message (H := SampleHost.host) "sid-bob" Scenario.t0
            (Tour.note (PInt 1600000000000)) Scenario.lobby).1).1
      !! fresh_id (db_message Scenario.lobby) = Some msg.
Proof.
  apply (created_message_survives_sweep (H := SampleHost.host)). by_compute.
Defined.

(** Witness of X16: a message that expires one minute after it is sent. *)
Lemma handle_message_future_expiry_witness :
  ∃ msg,
    db_message
      (handle_message (H := SampleHost.host) "sid-bob" Scenario.t0
         (Tour.note (PInt 1700000060000)) Scenario.lobby).1
      !! fresh_id (db_message Scenario.lobby) = Some msg ∧
    Message.expires_at msg = Some 1700000060000000.
Proof.
  apply (handle_message_future_expiry (H := SampleHost.host) _ _ _ _ 1700000060000);
    by_compute.
Defined.

(** Witness of X21: bob sends a message without a preview. *)
Lemma handle_message_without_preview_witness :
  ∃ p msg,
    (handle_message (H := SampleHost.host) "sid-bob" Scenario.t0 (Tour.note PNone)
       Scenario.lobby).2 = [(EvMessage p, ToRoom (md_room (Tour.note PNone)))] ∧
    mp_id p = fresh_id (db_message Scenario.lobby) ∧
    mp_user p = acting_username "sid-bob" Scenario.lobby ∧
    db_message Scenario.lobby !! mp_id p = None ∧
    db_message
      (handle_message (H := SampleHost.host) "sid-bob" Scenario.t0 (Tour.note PNone)
         Scenario.lobby).1 !! mp_id p = Some msg ∧
    Message.username msg = mp_user p ∧
    Message.expires_at msg = mp_expires_at p ∧
    ∀ j, j ≠ mp_id p →
         db_message
           (handle_message (H := SampleHost.host) "sid-bob" Scenario.t0
              (Tour.note PNone) Scenario.lobby).1 !! j =
         db_message Scenario.lobby !! j.
Proof.
  apply (handle_message_without_preview (H := SampleHost.host)). by_compute.
Defined.

(** Witness of X22: bob's message is deleted right after it was sent. *)
Lemma create_then_delete_witness :
  delete_message (fresh_id (db_message Scenario.lobby))
    (handle_message (H := SampleHost.host) "sid-bob" Scenario.t0 (Tour.note PNone)
       Scenario.lobby).1 =
  (Scenario.lobby,
   [(EvDeleteMessage (fresh_id (db_message Scenario.lobby)),
     ToRoom (md_room (Tour.note PNone)))], 200).
Proof. apply (create_then_delete (H := SampleHost.host)). by_compute. Defined.

(** Witness of X24: message 1 of the lobby is marked read twice. *)
Lemma mark_read_twice_witness :
  mark_read 1 (mark_read 1 Scenario.lobby).1.1 =
    ((mark_read 1 Scenario.lobby).1.1,
     [(EvMessageRead 1 "lobby", ToRoom "lobby")], 200).
Proof.
  apply (mark_read_twice 1 Scenario.lobby
           (Scenario.row "alice" "lobby" None false [] true false)).
  by_compute.
Defined.

(** Witness of X25: message 1 of the lobby is edited twice, the second
    time under the key [encryptedmap]. *)
Lemma edit_message_last_wins_witness :
  db_message
    (edit_message 1 (EditData None (Some [("bob", "c2Vjb25k")]))
       (edit_message 1 (EditData (Some [("bob", "Zmlyc3Q=")]) None)
          Scenario.lobby).1.1).1.1 =
  db_message
    (edit_message 1 (EditData None (Some [("bob", "c2Vjb25k")])) Scenario.lobby).1.1.
Proof. apply edit_message_last_wins. by_compute. Defined.

(** Witness of X27: carol's key after her join. *)
Lemma join_publishes_key_witness :
  get_public_key (default "" (jd_username Tour.carol)) Tour.carol_joined.1 =
    (jd_publicKey Tour.carol, 200).
Proof.
  apply (join_publishes_key "sid-carol" (Scenario.t0 + 5) Tour.carol Scenario.lobby
           Tour.carol_joined.1 Tour.carol_joined.2); by_compute.
Defined.

(** Witness of X28: bob reacts twice to message "1". *)
Lemma react_then_list_witness :
  (Reactions.react_to_message "1" Tour.thumbs_up
     [Reactions.Row "1" "bob" "+1"; Reactions.Row "2" "alice" "ok"]).2 = 200 ∧
  (Reactions.react_to_message "1" Tour.thumbs_up
     [Reactions.Row "1" "bob" "+1"; Reactions.Row "2" "alice" "ok"]).1.2 =
    [Reactions.EvReaction "1"] ∧
  Reactions.get_message_reactions "1"
    (Reactions.react_to_message "1" Tour.thumbs_up
       [Reactions.Row "1" "bob" "+1"; Reactions.Row "2" "alice" "ok"]).1.1 =
    Reactions.get_message_reactions "1"
      [Reactions.Row "1" "bob" "+1"; Reactions.Row "2" "alice" "ok"] ++
    [Reactions.ReactionJson
       (Z.of_nat (length [Reactions.Row "1" "bob" "+1"; Reactions.Row "2" "alice" "ok"]) + 1)
       (default "" (Reactions.rd_user_id Tour.thumbs_up))
       (default "" (Reactions.rd_emoji Tour.thumbs_up))] ∧
  ∀ other, other ≠ "1" →
           Reactions.get_message_reactions other
             (Reactions.react_to_message "1" Tour.thumbs_up
                [Reactions.Row "1" "bob" "+1"; Reactions.Row "2" "alice" "ok"]).1.1 =
           Reactions.get_message_reactions other
             [Reactions.Row "1" "bob" "+1"; Reactions.Row "2" "alice" "ok"].
Proof. apply react_then_list; by_compute. Defined.
